(** * A shallow embedding of the meal-nutrition pipeline of [main.py]

    The script turns a free-text meal description into a nutrition report:
    [parse_food_amount] asks a text-generation service for a JSON list of
    foods, [query_usda] looks every food up in the USDA search service,
    [extract_nutrients] classifies the nutrient entries of a record,
    [calculate_meal_totals] sums the per-food mappings, [generate_analysis]
    asks the text-generation service for a narrative and [nutrition_agent]
    sequences the five.

    Modelling choices.
    - A Python [str] is a [string]; the model is exact on ASCII text
      ([lower], [strip] and iteration work byte by byte).
    - A Python [int] or [float] is an exact rational [Q]: rounding, NaN and
      the infinities of IEEE floats are outside the model.
    - A Python [dict] is an association list in insertion order whose keys
      are kept distinct by [dict_set].
    - A Python exception is the [Raise] case of [result].
    - The two external services are oracles that see the history of calls;
      every call is recorded in a trace of events.
    - The [print] calls are not modelled: on values decoded from JSON
      neither [print] nor [json.dumps] raises. *)

From Stdlib Require Import List Bool Arith ZArith QArith Lia.
From Stdlib Require Import Ascii String.
From Stdlib Require Import Permutation.
From Stdlib Require Import DecimalString.
Import ListNotations.

Close Scope Q_scope.
Open Scope nat_scope.
Open Scope string_scope.
Open Scope list_scope.

(** ** Python strings *)

Module PyStr.

(** The double quote, which a literal cannot hold. *)
Definition dq : string := String (ascii_of_nat 34) "".
(** The newline. *)
Definition nl : string := String (ascii_of_nat 10) "".

Fixpoint prefixb (p s : string) : bool :=
  match p with
  | EmptyString => true
  | String a p' =>
      match s with
      | EmptyString => false
      | String b s' => Ascii.eqb a b && prefixb p' s'
      end
  end.

Fixpoint drop (n : nat) (s : string) : string :=
  match n with
  | O => s
  | S n' => match s with EmptyString => EmptyString | String _ s' => drop n' s' end
  end.

(** [sub in s] of Python. *)
Fixpoint contains (sub s : string) : bool :=
  prefixb sub s ||
  match s with
  | EmptyString => false
  | String _ s' => contains sub s'
  end.

(** [s.partition(sep)] when [sep] occurs: the text before the first
    occurrence and the text after it. *)
Fixpoint find_first (sep s : string) : option (string * string) :=
  if prefixb sep s then Some (EmptyString, drop (String.length sep) s)
  else match s with
       | EmptyString => None
       | String c s' =>
           match find_first sep s' with
           | Some (a, b) => Some (String c a, b)
           | None => None
           end
       end.

(** [s.split(sep)] for a non-empty [sep]: occurrences are consumed from the
    left and do not overlap.  Every step removes at least one character, so
    [String.length s] steps are enough. *)
Fixpoint split_fuel (fuel : nat) (sep s : string) : list string :=
  match fuel with
  | O => [s]
  | S fuel' =>
      match find_first sep s with
      | None => [s]
      | Some (a, b) => a :: split_fuel fuel' sep b
      end
  end.

Definition split (sep s : string) : list string :=
  split_fuel (String.length s) sep s.

(** [str.isspace] on ASCII: tab, line feed, vertical tab, form feed,
    carriage return, the four separators 28..31 and the space. *)
Definition is_space (c : ascii) : bool :=
  let n := nat_of_ascii c in
  ((9 <=? n)%nat && (n <=? 13)%nat) || ((28 <=? n)%nat && (n <=? 32)%nat).

Fixpoint lstrip (s : string) : string :=
  match s with
  | EmptyString => EmptyString
  | String c s' => if is_space c then lstrip s' else s
  end.

Fixpoint rstrip (s : string) : string :=
  match s with
  | EmptyString => EmptyString
  | String c s' =>
      match rstrip s' with
      | EmptyString => if is_space c then EmptyString else String c EmptyString
      | r => String c r
      end
  end.

Definition strip (s : string) : string := rstrip (lstrip s).

Definition lower_ascii (c : ascii) : ascii :=
  let n := nat_of_ascii c in
  if (65 <=? n)%nat && (n <=? 90)%nat then ascii_of_nat (n + 32) else c.

Fixpoint lower (s : string) : string :=
  match s with
  | EmptyString => EmptyString
  | String c s' => String (lower_ascii c) (lower s')
  end.

(** Iterating a [str] yields its characters as one-character strings. *)
Fixpoint chars (s : string) : list string :=
  match s with
  | EmptyString => []
  | String c s' => String c EmptyString :: chars s'
  end.

(** [s > t] on strings: lexicographic on the characters. *)
Fixpoint gtb (s t : string) : bool :=
  match s, t with
  | EmptyString, _ => false
  | String _ _, EmptyString => true
  | String a s', String b t' =>
      if Ascii.eqb a b then gtb s' t'
      else (nat_of_ascii b <? nat_of_ascii a)%nat
  end.

End PyStr.

(** ** Python values, exceptions and the dynamic operations the script uses *)

(** The values [json.loads] produces, which are all the values the script
    handles besides its own strings and dicts. *)
#[warning="-register-all"]
Inductive value : Type :=
| VNone
| VBool (b : bool)
| VNum (q : Q)
| VStr (s : string)
| VList (l : list value)
| VDict (d : list (string * value)).

Definition dict : Type := list (string * value).

Inductive exn : Type :=
| AttributeError
| TypeError
| KeyError
| IndexError
| ValueError
| JSONDecodeError
| RequestException
| OtherError.

Inductive result (A : Type) : Type :=
| Ok (a : A)
| Raise (e : exn).
Arguments Ok {A} a.
Arguments Raise {A} e.

Definition rbind {A B : Type} (r : result A) (k : A -> result B) : result B :=
  match r with
  | Ok a => k a
  | Raise e => Raise e
  end.

Declare Scope result_scope.
Delimit Scope result_scope with result.
Notation "x <- r ;; k" := (rbind r (fun x => k))
  (at level 61, r at next level, right associativity) : result_scope.

(** [d.get(k)] as an option, [d[k] = v], [list(d)]. *)
Fixpoint dict_get (k : string) (d : dict) : option value :=
  match d with
  | [] => None
  | (k', v) :: d' => if String.eqb k k' then Some v else dict_get k d'
  end.

Fixpoint dict_set (k : string) (v : value) (d : dict) : dict :=
  match d with
  | [] => [(k, v)]
  | (k', v') :: d' =>
      if String.eqb k k' then (k', v) :: d' else (k', v') :: dict_set k v d'
  end.

Definition dict_keys (d : dict) : list string := map fst d.

Definition dict_mem (k : string) (d : dict) : bool :=
  match dict_get k d with Some _ => true | None => false end.

(** [bool(v)], the test behind [not v] and [if v]. *)
Definition truthy (v : value) : bool :=
  match v with
  | VNone => false
  | VBool b => b
  | VNum q => negb (Qnum q =? 0)%Z
  | VStr s => negb (String.eqb s "")
  | VList l => match l with [] => false | _ => true end
  | VDict d => match d with [] => false | _ => true end
  end.

(** [bool] is a subclass of [int]: [True] counts as 1 in arithmetic and in
    comparisons. *)
Definition num_of (v : value) : option Q :=
  match v with
  | VNum q => Some q
  | VBool b => Some (if b then 1%Q else 0%Q)
  | _ => None
  end.

(** [p < q] on exact numbers. *)
Definition Qltb (p q : Q) : bool :=
  (Qnum p * QDen q <? Qnum q * QDen p)%Z.

(** [v.get(k, default)]: only a dict has the method. *)
Definition py_get (v : value) (k : string) (default : value) : result value :=
  match v with
  | VDict d => Ok (match dict_get k d with Some x => x | None => default end)
  | _ => Raise AttributeError
  end.

(** [v.lower()]: only a string has the method. *)
Definition py_lower (v : value) : result string :=
  match v with
  | VStr s => Ok (PyStr.lower s)
  | _ => Raise AttributeError
  end.

(** [iter(v)], run to the end. *)
Definition py_iter (v : value) : result (list value) :=
  match v with
  | VList l => Ok l
  | VStr s => Ok (map VStr (PyStr.chars s))
  | VDict d => Ok (map VStr (dict_keys d))
  | _ => Raise TypeError
  end.

(** [a == b].  It never raises on these values. *)
Fixpoint py_eq (a b : value) : bool :=
  match a, b with
  | VNone, VNone => true
  | VStr s, VStr t => String.eqb s t
  | VList l, VList m =>
      (fix go (l m : list value) : bool :=
         match l, m with
         | [], [] => true
         | x :: l', y :: m' => py_eq x y && go l' m'
         | _, _ => false
         end) l m
  | VDict d, VDict e =>
      Nat.eqb (List.length d) (List.length e) &&
      (fix go (d : list (string * value)) : bool :=
         match d with
         | [] => true
         | (k, v) :: d' =>
             match dict_get k e with
             | Some w => py_eq v w
             | None => false
             end && go d'
         end) d
  | VBool x, VBool y => Bool.eqb x y
  | VBool x, VNum q => Qeq_bool (if x then 1%Q else 0%Q) q
  | VNum p, VBool y => Qeq_bool p (if y then 1%Q else 0%Q)
  | VNum p, VNum q => Qeq_bool p q
  | _, _ => false
  end.

(** [a > b]: numbers with numbers, strings with strings, lists with lists
    (at the first pair of elements that are not equal, else by length);
    anything else is a [TypeError]. *)
Fixpoint py_gt (a b : value) : result bool :=
  match a, b with
  | VStr s, VStr t => Ok (PyStr.gtb s t)
  | VList l, VList m =>
      (fix go (l m : list value) : result bool :=
         match l, m with
         | [], _ => Ok false
         | _ :: _, [] => Ok true
         | x :: l', y :: m' => if py_eq x y then go l' m' else py_gt x y
         end) l m
  | VBool x, VBool y =>
      Ok (Qltb (if y then 1%Q else 0%Q) (if x then 1%Q else 0%Q))
  | VBool x, VNum q => Ok (Qltb q (if x then 1%Q else 0%Q))
  | VNum p, VBool y => Ok (Qltb (if y then 1%Q else 0%Q) p)
  | VNum p, VNum q => Ok (Qltb q p)
  | _, _ => Raise TypeError
  end.

(** [k in v] for a string [k]. *)
Definition py_in (k : string) (v : value) : result bool :=
  match v with
  | VDict d => Ok (dict_mem k d)
  | VList l => Ok (existsb (py_eq (VStr k)) l)
  | VStr s => Ok (PyStr.contains k s)
  | _ => Raise TypeError
  end.

(** [v[k]] for a string [k]. *)
Definition py_getitem (v : value) (k : string) : result value :=
  match v with
  | VDict d =>
      match dict_get k d with
      | Some x => Ok x
      | None => Raise KeyError
      end
  | _ => Raise TypeError
  end.

(** [a + b]. *)
Definition py_add (a b : value) : result value :=
  match num_of a, num_of b with
  | Some p, Some q => Ok (VNum (p + q))
  | _, _ =>
      match a, b with
      | VStr s, VStr t => Ok (VStr (s ++ t))
      | VList l, VList m => Ok (VList (l ++ m))
      | _, _ => Raise TypeError
      end
  end.

(** A [for] loop whose body can raise: the loop stops at the first
    exception. *)
Fixpoint rfold {A B : Type} (f : B -> A -> result B) (l : list A) (b : B)
  : result B :=
  match l with
  | [] => Ok b
  | x :: l' =>
      match f b x with
      | Ok b' => rfold f l' b'
      | Raise e => Raise e
      end
  end.

(** The rest of [max(iterable, key=key)] once a first item is held: a later
    item replaces the held one only when its key is greater. *)
Fixpoint max_go (key : value -> result value) (l : list value)
  (best kbest : value) : result value :=
  match l with
  | [] => Ok best
  | y :: l' =>
      match key y with
      | Raise e => Raise e
      | Ok ky =>
          match py_gt ky kbest with
          | Raise e => Raise e
          | Ok true => max_go key l' y ky
          | Ok false => max_go key l' best kbest
          end
      end
  end.

Definition py_max_by (key : value -> result value) (l : list value)
  : result value :=
  match l with
  | [] => Raise ValueError
  | x :: l' =>
      match key x with
      | Raise e => Raise e
      | Ok kx => max_go key l' x kx
      end
  end.

(** [try: r except Exception: handler] *)
Definition catch {A : Type} (r : result A) (handler : exn -> result A)
  : result A :=
  match r with
  | Ok a => Ok a
  | Raise e => handler e
  end.

(** [l[i]] on a list. *)
Definition py_index {A : Type} (l : list A) (i : nat) : result A :=
  match nth_error l i with
  | Some x => Ok x
  | None => Raise IndexError
  end.

(** ** [json.loads]

    A model of the decoder of the standard library ([json.decoder] and
    [json.scanner]) on the JSON grammar: literals, numbers, strings with
    their escapes, arrays and objects.  The three non-finite literals the
    decoder also accepts and its limit on the nesting depth are not
    modelled.  [None] is a [JSONDecodeError]. *)

Module Json.

Local Open Scope nat_scope.

Definition is_ws (c : ascii) : bool :=
  let n := nat_of_ascii c in
  (n =? 32) || (n =? 9) || (n =? 10) || (n =? 13).

Fixpoint skip_ws (s : string) : string :=
  match s with
  | String c s' => if is_ws c then skip_ws s' else s
  | EmptyString => EmptyString
  end.

Definition digit_of (c : ascii) : option Z :=
  let n := nat_of_ascii c in
  if (48 <=? n) && (n <=? 57) then Some (Z.of_nat (n - 48)) else None.

Definition hex_of (c : ascii) : option N :=
  let n := N_of_ascii c in
  if (48 <=? n)%N && (n <=? 57)%N then Some (n - 48)%N
  else if (65 <=? n)%N && (n <=? 70)%N then Some (n - 55)%N
  else if (97 <=? n)%N && (n <=? 102)%N then Some (n - 87)%N
  else None.

(** The digits at the head of [s]: their value read after [acc], how many
    they are, and the rest. *)
Fixpoint take_digits (acc : Z) (count : nat) (s : string) : Z * nat * string :=
  match s with
  | String c s' =>
      match digit_of c with
      | Some d => take_digits (10 * acc + d)%Z (S count) s'
      | None => (acc, count, s)
      end
  | EmptyString => (acc, count, s)
  end.

(** The integer part of the number pattern: [0] or a digit from 1 to 9
    followed by digits. *)
Definition int_part (s : string) : option (Z * string) :=
  match s with
  | String c s' =>
      match digit_of c with
      | Some 0%Z => Some (0%Z, s')
      | Some d => let '(m, _, r) := take_digits d 1 s' in Some (m, r)
      | None => None
      end
  | EmptyString => None
  end.

(** The optional fraction [.digits]: the mantissa extended by the digits
    and their number. *)
Definition frac_part (m : Z) (s : string) : Z * nat * string :=
  match s with
  | String "." s' =>
      match take_digits m 0 s' with
      | (_, O, _) => (m, 0, s)
      | r => r
      end
  | _ => (m, 0, s)
  end.

(** The optional exponent [e], sign, digits. *)
Definition exp_part (s : string) : Z * string :=
  match s with
  | String c s' =>
      if (nat_of_ascii c =? 101) || (nat_of_ascii c =? 69) then
        let '(neg, s'') :=
          match s' with
          | String "-" t => (true, t)
          | String "+" t => (false, t)
          | _ => (false, s')
          end in
        match take_digits 0 0 s'' with
        | (_, O, _) => (0%Z, s)
        | (e, _, r) => ((if neg then - e else e)%Z, r)
        end
      else (0%Z, s)
  | EmptyString => (0%Z, s)
  end.

Definition scale (m e : Z) : Q :=
  if (0 <=? e)%Z then inject_Z (m * 10 ^ e)
  else Qmake m (Z.to_pos (10 ^ (- e))).

Definition parse_number (s : string) : option (Q * string) :=
  let '(neg, s1) :=
    match s with
    | String "-" t => (true, t)
    | _ => (false, s)
    end in
  match int_part s1 with
  | None => None
  | Some (m, s2) =>
      let '(m', nfrac, s3) := frac_part m s2 in
      let '(e, s4) := exp_part s3 in
      let q := scale m' (e - Z.of_nat nfrac) in
      Some (if neg then Qopp q else q, s4)
  end.

(** [chr(n)] as UTF-8 bytes. *)
Definition utf8 (n : N) : string :=
  (let b (k : N) := ascii_of_N k in
   if n <? 128 then String (b n) ""
   else if n <? 2048 then
     String (b (192 + n / 64)) (String (b (128 + n mod 64)) "")
   else if n <? 65536 then
     String (b (224 + n / 4096))
       (String (b (128 + (n / 64) mod 64)) (String (b (128 + n mod 64)) ""))
   else
     String (b (240 + n / 262144))
       (String (b (128 + (n / 4096) mod 64))
          (String (b (128 + (n / 64) mod 64))
             (String (b (128 + n mod 64)) ""))))%N.

(** Four hexadecimal digits. *)
Definition hex4 (s : string) : option (N * string) :=
  match s with
  | String a (String b (String c (String d r))) =>
      match hex_of a, hex_of b, hex_of c, hex_of d with
      | Some x, Some y, Some z, Some w =>
          Some ((((x * 16 + y) * 16 + z) * 16 + w)%N, r)
      | _, _, _, _ => None
      end
  | _ => None
  end.

Definition simple_escape (c : ascii) : option ascii :=
  let n := nat_of_ascii c in
  if n =? 34 then Some c            (* quote *)
  else if n =? 92 then Some c       (* backslash *)
  else if n =? 47 then Some c       (* slash *)
  else if n =? 98 then Some (ascii_of_nat 8)
  else if n =? 102 then Some (ascii_of_nat 12)
  else if n =? 110 then Some (ascii_of_nat 10)
  else if n =? 114 then Some (ascii_of_nat 13)
  else if n =? 116 then Some (ascii_of_nat 9)
  else None.

(** The body of a string after its opening quote, up to the closing one.
    The fuel is the number of characters that may still be read. *)
Fixpoint scanstring (fuel : nat) (s : string) : option (string * string) :=
  match fuel with
  | O => None
  | S fuel' =>
      match s with
      | EmptyString => None
      | String c s' =>
          let n := nat_of_ascii c in
          if n =? 34 then Some (EmptyString, s')
          else if n =? 92 then
            match s' with
            | EmptyString => None
            | String e s'' =>
                if nat_of_ascii e =? 117 then
                  match hex4 s'' with
                  | None => None
                  | Some (u, r) =>
                      let '(code, r') :=
                        if (55296 <=? u)%N && (u <=? 56319)%N then
                          match r with
                          | String "\" (String "u" r2) =>
                              match hex4 r2 with
                              | Some (u2, r3) =>
                                  if (56320 <=? u2)%N && (u2 <=? 57343)%N then
                                    ((65536 + ((u - 55296) * 1024
                                               + (u2 - 56320)))%N, r3)
                                  else (u, r)
                              | None => (u, r)
                              end
                          | _ => (u, r)
                          end
                        else (u, r) in
                      match scanstring fuel' r' with
                      | Some (t, rest) => Some (String.append (utf8 code) t, rest)
                      | None => None
                      end
                  end
                else
                  match simple_escape e with
                  | None => None
                  | Some x =>
                      match scanstring fuel' s'' with
                      | Some (t, rest) => Some (String x t, rest)
                      | None => None
                      end
                  end
            end
          else if n <? 32 then None
          else
            match scanstring fuel' s' with
            | Some (t, rest) => Some (String c t, rest)
            | None => None
            end
      end
  end.

Section Containers.

(** The scanner for one value, at the next smaller fuel. *)
Variable scan : string -> option (value * string).

(** The elements of an array after the first has been announced. *)
Fixpoint array_items (fuel : nat) (acc : list value) (s : string)
  : option (list value * string) :=
  match fuel with
  | O => None
  | S fuel' =>
      match scan s with
      | None => None
      | Some (v, r) =>
          match skip_ws r with
          | String "]" r' => Some (rev (v :: acc), r')
          | String "," r' => array_items fuel' (v :: acc) (skip_ws r')
          | _ => None
          end
      end
  end.

Definition parse_array (fuel : nat) (s : string) : option (value * string) :=
  match skip_ws s with
  | String "]" r => Some (VList [], r)
  | s' =>
      match array_items fuel [] s' with
      | Some (l, r) => Some (VList l, r)
      | None => None
      end
  end.

(** The members of an object; [s] starts after the quote that opens a key. *)
Fixpoint object_items (fuel : nat) (acc : dict) (s : string)
  : option (dict * string) :=
  match fuel with
  | O => None
  | S fuel' =>
      match scanstring (S (String.length s)) s with
      | None => None
      | Some (k, r) =>
          match skip_ws r with
          | String ":" r1 =>
              match scan (skip_ws r1) with
              | None => None
              | Some (v, r2) =>
                  let acc' := dict_set k v acc in
                  match skip_ws r2 with
                  | String "}" r3 => Some (acc', r3)
                  | String "," r3 =>
                      match skip_ws r3 with
                      | String c r4 =>
                          if nat_of_ascii c =? 34
                          then object_items fuel' acc' r4
                          else None
                      | EmptyString => None
                      end
                  | _ => None
                  end
              end
          | _ => None
          end
      end
  end.

Definition parse_object (fuel : nat) (s : string) : option (value * string) :=
  match skip_ws s with
  | String "}" r => Some (VDict [], r)
  | String c r =>
      if nat_of_ascii c =? 34 then
        match object_items fuel [] r with
        | Some (d, r') => Some (VDict d, r')
        | None => None
        end
      else None
  | EmptyString => None
  end.

End Containers.

(** One value at the head of [s].  Every nested value and every further
    element costs one unit of fuel and at least one character. *)
Fixpoint scan_once (fuel : nat) (s : string) : option (value * string) :=
  match fuel with
  | O => None
  | S fuel' =>
      match s with
      | EmptyString => None
      | String c r =>
          let n := nat_of_ascii c in
          if n =? 34 then
            match scanstring (S (String.length r)) r with
            | Some (t, r') => Some (VStr t, r')
            | None => None
            end
          else if n =? 123 then parse_object (scan_once fuel') fuel' r
          else if n =? 91 then parse_array (scan_once fuel') fuel' r
          else if PyStr.prefixb "null" s then Some (VNone, PyStr.drop 4 s)
          else if PyStr.prefixb "true" s then Some (VBool true, PyStr.drop 4 s)
          else if PyStr.prefixb "false" s then Some (VBool false, PyStr.drop 5 s)
          else
            match parse_number s with
            | Some (q, r') => Some (VNum q, r')
            | None => None
            end
      end
  end.

(** [json.loads(s)]: one value between optional whitespace and nothing
    else. *)
Definition loads (s : string) : result value :=
  match scan_once (S (String.length s)) (skip_ws s) with
  | Some (v, r) =>
      match skip_ws r with
      | EmptyString => Ok v
      | _ => Raise JSONDecodeError
      end
  | None => Raise JSONDecodeError
  end.

End Json.

(** ** The nutrient extractor *)

(** The eight nutrient keys, in the order the script writes them. *)
Definition fixed_keys : list string :=
  ["calories"; "protein"; "fat"; "carbohydrates"; "fiber"; "sugars";
   "saturated_fat"; "sodium"].

(** One pass of the loop body of [extract_nutrients]: the [if]/[elif] chain
    on the lower-cased name and unit of one entry. *)
Definition extract_step (nutrients : dict) (nutrient : value) : result dict :=
  (n0 <- py_get nutrient "nutrientName" (VStr "") ;;
   name <- py_lower n0 ;;
   value <- py_get nutrient "value" (VNum 0) ;;
   u0 <- py_get nutrient "unitName" (VStr "") ;;
   unit <- py_lower u0 ;;
   Ok (if PyStr.contains "energy" name && PyStr.contains "kcal" unit then
         dict_set "calories" value nutrients
       else if PyStr.contains "protein" name then
         dict_set "protein" value nutrients
       else if PyStr.contains "total lipid" name
               || PyStr.contains "total fat" name then
         dict_set "fat" value nutrients
       else if PyStr.contains "carbohydrate" name
               && PyStr.contains "by difference" name then
         dict_set "carbohydrates" value nutrients
       else if PyStr.contains "fiber" name
               && PyStr.contains "total dietary" name then
         dict_set "fiber" value nutrients
       else if PyStr.contains "sugars" name && PyStr.contains "total" name then
         dict_set "sugars" value nutrients
       else if PyStr.contains "fatty acids" name
               && PyStr.contains "saturated" name then
         dict_set "saturated_fat" value nutrients
       else if PyStr.contains "sodium" name then
         dict_set "sodium" value nutrients
       else nutrients))%result.

Definition extract_nutrients (usda_data : value) : result dict :=
  (entries <- py_get usda_data "foodNutrients" (VList []) ;;
   l <- py_iter entries ;;
   rfold extract_step l [])%result.

(** ** The meal aggregator *)

Definition zero_totals : dict :=
  [("calories", VNum 0); ("protein", VNum 0); ("fat", VNum 0);
   ("carbohydrates", VNum 0); ("fiber", VNum 0); ("sugars", VNum 0);
   ("saturated_fat", VNum 0); ("sodium", VNum 0)].

(** [if key in nutrients: totals[key] += nutrients[key]] *)
Definition add_key (nutrients : value) (totals : dict) (key : string)
  : result dict :=
  (present <- py_in key nutrients ;;
   if present : bool then
     cur <- py_getitem (VDict totals) key ;;
     x <- py_getitem nutrients key ;;
     s <- py_add cur x ;;
     Ok (dict_set key s totals)
   else Ok totals)%result.

(** The body of the outer loop: one meal item. *)
Definition add_item (totals : dict) (item : value) : result dict :=
  (nutrients <- py_get item "nutrients" (VDict []) ;;
   rfold (add_key nutrients) (dict_keys totals) totals)%result.

Definition calculate_meal_totals (meal_info : list value) : result dict :=
  rfold add_item meal_info zero_totals.

(** ** The external services and the effectful functions *)

(** A call to one of the two services. *)
Inductive event : Type :=
| LlmInvoke (prompt : string)
| UsdaSearch (query : value).

Definition trace : Type := list event.

(** What [requests.get] returns when it returns. *)
Record response : Type := mkResponse {
  status_code : Z;
  text : string
}.

(** [resp.raise_for_status()]: an [HTTPError], which is a
    [RequestException], for a status from 400 to 599. *)
Definition raise_for_status (resp : response) : result unit :=
  if ((400 <=? status_code resp) && (status_code resp <? 600))%Z
  then Raise RequestException
  else Ok tt.

(** A computation that calls the services: it reads the calls made so far
    and returns its outcome with the calls it added. *)
Definition M (A : Type) : Type := trace -> result A * trace.

Definition mret {A : Type} (a : A) : M A := fun t => (Ok a, t).

Definition mbind {A B : Type} (m : M A) (k : A -> M B) : M B :=
  fun t =>
    match m t with
    | (Ok a, t') => k a t'
    | (Raise e, t') => (Raise e, t')
    end.

Definition lift {A : Type} (r : result A) : M A := fun t => (r, t).

Declare Scope m_scope.
Delimit Scope m_scope with M.
Notation "x <- m ;; k" := (mbind m (fun x => k))
  (at level 61, m at next level, right associativity) : m_scope.

(** The lines of a triple-quoted literal. *)
Fixpoint lines (l : list string) : string :=
  match l with
  | [] => ""
  | x :: l' => x ++ PyStr.nl ++ lines l'
  end.

Definition fence : string := "```".
Definition fence_json : string := "```json".

(** The post-processing of the response in [parse_food_amount]: the text
    handed to [json.loads]. *)
Definition extract_json_text (content : string) : result string :=
  if PyStr.contains fence_json content then
    (a <- py_index (PyStr.split fence_json content) 1 ;;
     b <- py_index (PyStr.split fence a) 0 ;;
     Ok (PyStr.strip b))%result
  else if PyStr.contains fence content then
    (a <- py_index (PyStr.split fence content) 1 ;;
     b <- py_index (PyStr.split fence a) 0 ;;
     Ok (PyStr.strip b))%result
  else Ok content.

Definition no_foods_message : string :=
  "❌ Could not identify any foods in your input. Please try again with more specific descriptions.".

Definition no_data_message : string :=
  "⚠️ No nutritional data found for the foods mentioned. Try different food names.".

Definition analysis_fallback : string :=
  "Unable to generate nutrition analysis at this time.".

Definition parse_prompt (user_input : string) : string :=
  let q := PyStr.dq in
  PyStr.nl ++
  lines [
    "    You are a nutrition assistant that extracts food items and their quantities from text.";
    "    Follow these rules:";
    ("    1. Identify all distinct food items in: " ++ q ++ user_input ++ q)%string;
    "    2. Standardize names to match USDA database (e.g., 'scrambled eggs' → 'egg, whole, raw')";
    "    3. Estimate portions for vague descriptions:";
    "       - 'a bowl' → '1 bowl (250 g)'";
    "       - 'a few slices' → '3 slices (30 g)'";
    "       - 'medium serving' → '1 medium serving (117 g)'";
    ("    4. Return ONLY a JSON array with format: [{" ++ q ++ "food" ++ q ++ ": "
      ++ q ++ "standardized name" ++ q ++ ", " ++ q ++ "amount" ++ q ++ ": "
      ++ q ++ "estimated quantity" ++ q ++ "}]")%string;
    "    ";
    ("    Example input: " ++ q ++ "I had 2 scrambled eggs and a cup of coffee"
      ++ q)%string;
    ("    Example output: [{" ++ q ++ "food" ++ q ++ ": " ++ q ++ "egg, whole, raw"
      ++ q ++ ", " ++ q ++ "amount" ++ q ++ ": " ++ q ++ "2 large (100 g)" ++ q
      ++ "}, {" ++ q ++ "food" ++ q ++ ": " ++ q ++ "coffee, brewed" ++ q ++ ", "
      ++ q ++ "amount" ++ q ++ ": " ++ q ++ "1 cup (240 ml)" ++ q ++ "}]")%string
  ] ++ "    ".

(** The prompt of [generate_analysis] around the eight formatted totals. *)
Definition analysis_prompt
  (calories protein fat saturated carbohydrates fiber sugars sodium : string)
  : string :=
  PyStr.nl ++
  lines [
    "    You are a professional nutritionist analyzing a meal. Use USDA Dietary Guidelines to evaluate:";
    ("    - Calories: " ++ calories ++ " kcal")%string;
    ("    - Protein: " ++ protein ++ "g")%string;
    ("    - Total Fat: " ++ fat ++ "g (Saturated: " ++ saturated ++ "g)")%string;
    ("    - Carbohydrates: " ++ carbohydrates ++ "g")%string;
    ("    - Fiber: " ++ fiber ++ "g")%string;
    ("    - Sugars: " ++ sugars ++ "g")%string;
    ("    - Sodium: " ++ sodium ++ "mg")%string;
    "    ";
    "    Provide a comprehensive analysis with:";
    "    1. Nutrition Score: X/10 (0-10 scale based on USDA guidelines)";
    "    2. Key Observations: Highlight strengths and weaknesses";
    "    3. Macronutrient Balance: Evaluate protein/fat/carb ratios";
    "    4. Micronutrient Note: Comment on vitamin/mineral content";
    "    5. Improvement Suggestions: Specific, actionable advice";
    "    6. Final Verdict: Overall assessment";
    "    ";
    "    Structure your response with clear sections:";
    "    **Score: X/10**";
    "    **Breakdown:**";
    "    - [Key observations]";
    "    **Pros:**";
    "    - [Strengths]";
    "    **Cons:**";
    "    - [Weaknesses]";
    "    **Suggestions:**";
    "    - [Actionable advice]";
    "    **Verdict:**";
    "    - [Overall assessment]"
  ] ++ "    ".

Section Services.

(** [llm.invoke(prompt).content], or the exception the call raises, given
    the calls made before. *)
Variable llm : trace -> string -> result string.

(** [requests.get] on the search endpoint with the query [food_name], given
    the calls made before: a response, or a [RequestException] for a
    network failure or a timeout. *)
Variable usda : trace -> value -> result response.

(** [format(v, "")], the text an f-string puts for [{v}]. *)
Variable py_format : value -> string.

Definition parse_food_amount (user_input : string) : M value :=
  fun t =>
    let prompt := parse_prompt user_input in
    (catch
       (content <- llm t prompt ;;
        extracted <- extract_json_text content ;;
        Json.loads extracted)%result
       (fun _ => Ok (VList [])),
     t ++ [LlmInvoke prompt]).

(** [lambda x: x.get("score", 0)] *)
Definition score_key (x : value) : result value := py_get x "score" (VNum 0).

Definition query_usda (food_name : value) : M value :=
  fun t =>
    (catch
       (resp <- usda t food_name ;;
        _ <- raise_for_status resp ;;
        data <- Json.loads (text resp) ;;
        foods <- py_get data "foods" VNone ;;
        if negb (truthy foods) then Ok (VDict [])
        else
          foods' <- py_getitem data "foods" ;;
          candidates <- py_iter foods' ;;
          py_max_by score_key candidates)%result
       (fun _ => Ok (VDict [])),
     t ++ [UsdaSearch food_name]).

Definition generate_analysis (meal_totals : dict) : M string :=
  let nutrients := VDict meal_totals in
  let get_or_zero (k : string) : value :=
    match dict_get k meal_totals with Some x => x | None => VNum 0 end in
  (calories <- lift (py_getitem nutrients "calories") ;;
   protein <- lift (py_getitem nutrients "protein") ;;
   fat <- lift (py_getitem nutrients "fat") ;;
   carbohydrates <- lift (py_getitem nutrients "carbohydrates") ;;
   fiber <- lift (py_getitem nutrients "fiber") ;;
   let prompt :=
     analysis_prompt (py_format calories) (py_format protein) (py_format fat)
       (py_format (get_or_zero "saturated_fat"))
       (py_format carbohydrates) (py_format fiber)
       (py_format (get_or_zero "sugars")) (py_format (get_or_zero "sodium")) in
   fun t =>
     (catch (llm t prompt) (fun _ => Ok analysis_fallback),
      t ++ [LlmInvoke prompt]))%M.

(** The loop of [nutrition_agent] over the parsed items; [meal_info] is the
    list built so far. *)
Fixpoint resolve_items (items : list value) (meal_info : list value)
  : M (list value) :=
  match items with
  | [] => mret meal_info
  | item :: rest =>
      (food_name <- lift (py_get item "food" (VStr "")) ;;
       amount <- lift (py_get item "amount" (VStr "")) ;;
       if negb (truthy food_name) then resolve_items rest meal_info
       else
         usda_data <- query_usda food_name ;;
         if negb (truthy usda_data) then resolve_items rest meal_info
         else
           nutrients <- lift (extract_nutrients usda_data) ;;
           resolve_items rest
             (meal_info ++
              [VDict [("food", food_name); ("amount", amount);
                      ("nutrients", VDict nutrients)]]))%M
  end.

Definition nutrition_agent (user_input : string) : M string :=
  (parsed_foods <- parse_food_amount user_input ;;
   if negb (truthy parsed_foods) then mret no_foods_message
   else
     items <- lift (py_iter parsed_foods) ;;
     meal_info <- resolve_items items [] ;;
     match meal_info with
     | [] => mret no_data_message
     | _ =>
         meal_totals <- lift (calculate_meal_totals meal_info) ;;
         generate_analysis meal_totals
     end)%M.

End Services.

(** ** Specification vocabulary *)

(** *** Nutrient rules *)

(** The substring rule of every key, in the order the script tests them. *)
Definition rules : list (string * (string -> string -> bool)) :=
  [("calories",
    fun name unit => PyStr.contains "energy" name && PyStr.contains "kcal" unit);
   ("protein", fun name _ => PyStr.contains "protein" name);
   ("fat",
    fun name _ =>
      PyStr.contains "total lipid" name || PyStr.contains "total fat" name);
   ("carbohydrates",
    fun name _ =>
      PyStr.contains "carbohydrate" name && PyStr.contains "by difference" name);
   ("fiber",
    fun name _ =>
      PyStr.contains "fiber" name && PyStr.contains "total dietary" name);
   ("sugars",
    fun name _ => PyStr.contains "sugars" name && PyStr.contains "total" name);
   ("saturated_fat",
    fun name _ =>
      PyStr.contains "fatty acids" name && PyStr.contains "saturated" name);
   ("sodium", fun name _ => PyStr.contains "sodium" name)].

(** Whether the lower-cased [name] and [unit] satisfy the rule of [key]. *)
Definition satisfies (key name unit : string) : bool :=
  existsb (fun r => String.eqb (fst r) key && snd r name unit) rules.

(** The first key of the priority order whose rule is satisfied. *)
Definition earliest_rule (name unit : string) : option string :=
  find (fun key => satisfies key name unit) fixed_keys.

(** A field of an entry that must be a string: absent, it is the empty
    string. *)
Definition str_field (k : string) (d : dict) : option string :=
  match dict_get k d with
  | None => Some ""
  | Some (VStr s) => Some s
  | Some _ => None
  end.

(** [nutrient.get("value", 0)] *)
Definition entry_value (d : dict) : value :=
  match dict_get "value" d with Some x => x | None => VNum 0 end.

(** A nutrient record: a dict whose name and unit, when present, are
    strings. *)
Definition nutrient_record (v : value) : Prop :=
  exists d name unit,
    v = VDict d /\
    str_field "nutrientName" d = Some name /\
    str_field "unitName" d = Some unit.

(** The key an entry is assigned to, if any, and the entry's value. *)
Definition assignment (v : value) : option (string * value) :=
  match v with
  | VDict d =>
      match str_field "nutrientName" d, str_field "unitName" d with
      | Some name, Some unit =>
          match earliest_rule (PyStr.lower name) (PyStr.lower unit) with
          | Some key => Some (key, entry_value d)
          | None => None
          end
      | _, _ => None
      end
  | _ => None
  end.

(** The keys whose rule an entry satisfies, with the entry's value. *)
Definition satisfied_by (key : string) (v : value) : option value :=
  match v with
  | VDict d =>
      match str_field "nutrientName" d, str_field "unitName" d with
      | Some name, Some unit =>
          if satisfies key (PyStr.lower name) (PyStr.lower unit)
          then Some (entry_value d) else None
      | _, _ => None
      end
  | _ => None
  end.

(** The value of the last entry of the list that [pick] selects. *)
Fixpoint last_picked (pick : value -> option value) (entries : list value)
  : option value :=
  match entries with
  | [] => None
  | e :: rest =>
      match last_picked pick rest with
      | Some v => Some v
      | None => pick e
      end
  end.

(** The value of the last entry assigned to [key]. *)
Definition last_assigned (key : string) (entries : list value) : option value :=
  last_picked
    (fun e =>
       match assignment e with
       | Some (k, v) => if String.eqb k key then Some v else None
       | None => None
       end) entries.

(** The value of the last entry whose name and unit satisfy the rule of
    [key]. *)
Definition last_satisfying (key : string) (entries : list value) : option value :=
  last_picked (satisfied_by key) entries.

(** "Each key's value equals the value of the last entry satisfying that
    key's rule", read on one list of entries. *)
Definition last_satisfying_wins (entries : list value) : Prop :=
  forall m key v,
    extract_nutrients (VDict [("foodNutrients", VList entries)]) = Ok m ->
    dict_get key m = Some v ->
    last_satisfying key entries = Some v.

(** *** Meal items *)

(** [item.get("nutrients", {})] of a meal item that is a dict whose nutrient
    mapping is a dict. *)
Definition item_nutrients (item : value) : option dict :=
  match item with
  | VDict d =>
      match dict_get "nutrients" d with
      | None => Some []
      | Some (VDict n) => Some n
      | Some _ => None
      end
  | _ => None
  end.

(** What an item adds to [key]: its number there, 0 when the key is absent. *)
Definition contribution (key : string) (item : value) : Q :=
  match item_nutrients item with
  | Some n =>
      match dict_get key n with
      | Some x => match num_of x with Some q => q | None => 0%Q end
      | None => 0%Q
      end
  | None => 0%Q
  end.

(** A meal item: a dict whose nutrient mapping holds numbers at the fixed
    keys it has. *)
Definition meal_item (item : value) : Prop :=
  exists n,
    item_nutrients item = Some n /\
    forall key x,
      In key fixed_keys -> dict_get key n = Some x -> num_of x <> None.


(** The totals mapping that holds [f key] at every fixed key. *)
Definition totals_of (f : string -> Q) : dict :=
  map (fun key => (key, VNum (f key))) fixed_keys.

(** What [add_key] adds to the total of [key], or the exception it raises;
    it does not depend on the totals. *)
Definition key_delta (nutrients : value) (key : string) : result Q :=
  (present <- py_in key nutrients ;;
   if present : bool then
     x <- py_getitem nutrients key ;;
     match num_of x with
     | Some q => Ok q
     | None => Raise TypeError
     end
   else Ok 0%Q)%result.

(** The eight amounts one item adds, as a function of the key. *)
Definition item_delta (item : value) : result (string -> Q) :=
  (n <- py_get item "nutrients" (VDict []) ;;
   q1 <- key_delta n "calories" ;;
   q2 <- key_delta n "protein" ;;
   q3 <- key_delta n "fat" ;;
   q4 <- key_delta n "carbohydrates" ;;
   q5 <- key_delta n "fiber" ;;
   q6 <- key_delta n "sugars" ;;
   q7 <- key_delta n "saturated_fat" ;;
   q8 <- key_delta n "sodium" ;;
   Ok (fun key =>
         if String.eqb key "calories" then q1
         else if String.eqb key "protein" then q2
         else if String.eqb key "fat" then q3
         else if String.eqb key "carbohydrates" then q4
         else if String.eqb key "fiber" then q5
         else if String.eqb key "sugars" then q6
         else if String.eqb key "saturated_fat" then q7
         else if String.eqb key "sodium" then q8
         else 0%Q))%result.

(** Two outcomes agree: the same totals, or an exception on both sides. *)
Definition same_outcome (a b : result dict) : Prop :=
  match a, b with
  | Ok x, Ok y => x = y
  | Raise _, Raise _ => True
  | _, _ => False
  end.

(** *** Fenced blocks *)

(** [sep] occurs in [s] after [pre] and before [rest], and nowhere
    earlier. *)
Definition first_occurrence (sep s pre rest : string) : Prop :=
  s = (pre ++ sep ++ rest)%string /\
  forall p r,
    s = (p ++ sep ++ r)%string -> String.length pre <= String.length p.

Definition no_occurrence (sep s : string) : Prop :=
  forall p r, s <> (p ++ sep ++ r)%string.

(** [s.split(sep)[0]]: the text before the first [sep], all of [s] when
    there is none. *)
Definition until (sep s : string) : string :=
  match PyStr.find_first sep s with
  | Some (a, _) => a
  | None => s
  end.

Definition starts_with_backtick (s : string) : bool := PyStr.prefixb "`" s.

(** What the caller of [parse_food_amount] gets for the text [s]. *)
Definition loads_or_empty (s : string) : result value :=
  match Json.loads s with
  | Ok v => Ok v
  | Raise _ => Ok (VList [])
  end.

Definition is_letter (c : ascii) : bool :=
  let n := nat_of_ascii c in
  ((65 <=? n)%nat && (n <=? 90)%nat) || ((97 <=? n)%nat && (n <=? 122)%nat).

(** The language tag of a fence: the letters right after it. *)
Fixpoint drop_tag (s : string) : string :=
  match s with
  | String c s' => if is_letter c then drop_tag s' else s
  | EmptyString => EmptyString
  end.

(** The content of the first fenced block of [s]: the text between the
    first fence and the next one, without the language tag. *)
Definition first_fenced_block (s : string) : option string :=
  match PyStr.find_first fence s with
  | None => None
  | Some (_, rest) =>
      match PyStr.find_first fence rest with
      | None => None
      | Some (inner, _) => Some (drop_tag inner)
      end
  end.

(** The JSON text of the round-trip example. *)
Definition example_json : string :=
  let q := PyStr.dq in
  "[{" ++ q ++ "food" ++ q ++ ":" ++ q ++ "egg, whole, raw" ++ q ++ ","
  ++ q ++ "amount" ++ q ++ ":" ++ q ++ "2 large (100 g)" ++ q ++ "}]".

Definition example_item : value :=
  VDict [("food", VStr "egg, whole, raw"); ("amount", VStr "2 large (100 g)")].

(** *** Search candidates *)




Definition is_dict (v : value) : bool :=
  match v with VDict _ => true | _ => false end.

(** The searches recorded in a trace. *)
Definition searches (t : trace) : list value :=
  flat_map (fun e => match e with UsdaSearch q => [q] | _ => [] end) t.

(** The prompts sent to the text-generation service. *)
Definition prompts (t : trace) : list string :=
  flat_map (fun e => match e with LlmInvoke p => [p] | _ => [] end) t.



(** A search service that always answers with the given status and body. *)
Definition usda_answers (status : Z) (body : string)
  : trace -> value -> result response :=
  fun _ _ => Ok (mkResponse status body).

(** A search service that cannot be reached. *)
Definition usda_down : trace -> value -> result response :=
  fun _ _ => Raise RequestException.


(** A body with three candidates of scores 2, 5 (missing for none) and 5. *)
Definition three_candidates_body : string :=
  let q := PyStr.dq in
  "{" ++ q ++ "foods" ++ q ++ ":[{" ++ q ++ "score" ++ q ++ ":2},{"
  ++ q ++ "score" ++ q ++ ":5," ++ q ++ "description" ++ q ++ ":" ++ q ++ "first" ++ q
  ++ "},{" ++ q ++ "score" ++ q ++ ":5," ++ q ++ "description" ++ q ++ ":" ++ q
  ++ "second" ++ q ++ "},{" ++ q ++ "description" ++ q ++ ":" ++ q ++ "unscored" ++ q ++ "}]}".

(** A body whose list of foods is empty. *)
Definition no_foods_body : string :=
  "{" ++ PyStr.dq ++ "foods" ++ PyStr.dq ++ ":[]}".

(** The part of [query_usda] that works on the decoded body. *)
Definition select (data : value) : result value :=
  (foods <- py_get data "foods" VNone ;;
   if negb (truthy foods) then Ok (VDict [])
   else
     foods' <- py_getitem data "foods" ;;
     candidates <- py_iter foods' ;;
     py_max_by score_key candidates)%result.


(** "If the response contains a fenced block, the content of the first such
    block is parsed; otherwise the raw text is", read on every response. *)
Definition first_block_parsed : Prop :=
  forall (llm : trace -> string -> result string) (user_input : string)
         (t : trace) (content : string),
    llm t (parse_prompt user_input) = Ok content ->
    fst (parse_food_amount llm user_input t)
    = match first_fenced_block content with
      | Some block => loads_or_empty (PyStr.strip block)
      | None => loads_or_empty content
      end.

(** A response with two fenced blocks, the second tagged [json]. *)
Definition two_blocks : string :=
  lines ["```"; "[1]"; "```"; "```json"; "[2]"] ++ "```".

(** The response of the round-trip example. *)
Definition example_response : string :=
  lines ["Here are the foods:"; "```json"; example_json; "```"].

(** A response cut short. *)
Definition truncated_response : string :=
  "[{" ++ PyStr.dq ++ "food" ++ PyStr.dq ++ ": " ++ PyStr.dq ++ "egg".

(** A text-generation service that always answers [content]. *)
Definition llm_says (content : string) : trace -> string -> result string :=
  fun _ _ => Ok content.

(** A text-generation service that is down. *)
Definition llm_down : trace -> string -> result string :=
  fun _ _ => Raise OtherError.

(** *** Totals and the analysis prompt *)

(** The keys [generate_analysis] reads with a subscript. *)
Definition required_keys : list string :=
  ["calories"; "protein"; "fat"; "carbohydrates"; "fiber"].

(** A total as the prompt shows it: 0 when the key is absent. *)
Definition totals_field (meal_totals : dict) (key : string) : value :=
  match dict_get key meal_totals with Some x => x | None => VNum 0 end.

(** The prompt that embeds the eight totals of [meal_totals]. *)
Definition totals_prompt (py_format : value -> string) (meal_totals : dict)
  : string :=
  let shown key := py_format (totals_field meal_totals key) in
  analysis_prompt (shown "calories") (shown "protein") (shown "fat")
    (shown "saturated_fat") (shown "carbohydrates") (shown "fiber")
    (shown "sugars") (shown "sodium").

(** The food name the agent reads in a parsed item. *)
Definition item_food (d : dict) : value :=
  match dict_get "food" d with Some x => x | None => VStr "" end.

(** *** Examples of services and inputs *)

(** A formatter for the examples: whole numbers in decimal. *)
Definition format_whole (v : value) : string :=
  match v with
  | VNum q =>
      if (Zpos (Qden q) =? 1)%Z
      then NilEmpty.string_of_int (Z.to_int (Qnum q))
      else "?"
  | VStr s => s
  | _ => "?"
  end.

(** A response that lists a food without a name and a food named
    [mystery]. *)
Definition nameless_and_mystery : string :=
  let q := PyStr.dq in
  "[{" ++ q ++ "amount" ++ q ++ ":" ++ q ++ "1 cup" ++ q ++ "},{"
  ++ q ++ "food" ++ q ++ ":" ++ q ++ "mystery" ++ q ++ "}]".

(** A response that is a JSON string, not a list. *)
Definition json_string_response : string :=
  PyStr.dq ++ "egg" ++ PyStr.dq.

(** A response that lists an object and then a number. *)
Definition object_then_number : string :=
  let q := PyStr.dq in
  "[{" ++ q ++ "food" ++ q ++ ":" ++ q ++ "egg" ++ q ++ "}, 5]".

(** *** Example records, items and candidates *)

Definition protein_entry : value :=
  VDict [("nutrientName", VStr "Protein"); ("value", VNum 5);
         ("unitName", VStr "G")].

(** An entry whose name satisfies the rule of calories and the rule of
    protein. *)
Definition energy_from_protein_entry : value :=
  VDict [("nutrientName", VStr "Energy from protein"); ("value", VNum 7);
         ("unitName", VStr "KCAL")].

Definition overlapping_entries : list value :=
  [protein_entry; energy_from_protein_entry].

Definition egg_item : value :=
  VDict [("food", VStr "egg, whole, raw"); ("amount", VStr "2 large (100 g)");
         ("nutrients", VDict [("calories", VNum 143); ("protein", VNum (25 # 2))])].

Definition coffee_item : value :=
  VDict [("food", VStr "coffee, brewed"); ("amount", VStr "1 cup (240 ml)");
         ("nutrients", VDict [("calories", VNum 2); ("sodium", VNum 5)])].



(** ** Vocabulary for further properties *)

(** An entry is assigned to some key. *)
Definition has_assignment (e : value) : bool :=
  match assignment e with Some _ => true | None => false end.

(** The value a totals mapping holds under [key], when it is a number. *)
Definition total_at (key : string) (totals : dict) : option Q :=
  match dict_get key totals with
  | Some (VNum q) => Some q
  | _ => None
  end.

(** Two items carry the same values under the eight fixed keys; their food
    names, amounts and other nutrient keys may differ. *)
Definition same_fixed_nutrients (a b : value) : Prop :=
  exists n1 n2,
    item_nutrients a = Some n1 /\
    item_nutrients b = Some n2 /\
    forall key, In key fixed_keys -> dict_get key n1 = dict_get key n2.

(** An item as [nutrition_agent] builds it. *)
Definition built_item (item : value) : Prop :=
  exists food_name amount nutrients,
    item = VDict [("food", food_name); ("amount", amount);
                  ("nutrients", VDict nutrients)] /\
    truthy food_name = true /\
    NoDup (dict_keys nutrients) /\
    incl (dict_keys nutrients) fixed_keys.

(** The food names the loop of the agent searches for: those of the items
    that are dicts with a truthy name, in order. *)
Definition named_foods (items : list value) : list value :=
  flat_map
    (fun item =>
       match item with
       | VDict d => if truthy (item_food d) then [item_food d] else []
       | _ => []
       end) items.

(** [s[:n]] *)
Fixpoint str_take (n : nat) (s : string) : string :=
  match n with
  | O => EmptyString
  | S n' =>
      match s with
      | EmptyString => EmptyString
      | String c s' => String c (str_take n' s')
      end
  end.

(** The text the start-up lines print for a key read from the environment:
    [key[:8] + "..." if key else "Not found"]. *)
Definition key_preview (key : option string) : string :=
  match key with
  | Some k =>
      if negb (String.eqb k "") then str_take 8 k ++ "..." else "Not found"
  | None => "Not found"
  end.




(** *** More examples *)

(** A record whose second nutrient has no name: the service sent null. *)
Definition null_name_entry : value :=
  VDict [("nutrientName", VNone); ("value", VNum 1)].

(** An entry that matches no rule. *)
Definition vitamin_entry : value :=
  VDict [("nutrientName", VStr "Vitamin C, total ascorbic acid");
         ("value", VNum 3); ("unitName", VStr "MG")].

(** An item whose calories are a text. *)
Definition text_calories_item : value :=
  VDict [("food", VStr "tea"); ("amount", VStr "1 cup");
         ("nutrients", VDict [("calories", VStr "n/a")])].

(** The egg under another name, with a nutrient outside the fixed keys. *)
Definition egg_item_renamed : value :=
  VDict [("food", VStr "oeuf"); ("amount", VStr "100 g");
         ("nutrients",
          VDict [("vitamin_c", VNum 9); ("calories", VNum 143);
                 ("protein", VNum (25 # 2))])].

(** [x.get("score", 0)] of a candidate that is a dict. *)
Definition score_value (d : dict) : value :=
  match dict_get "score" d with Some x => x | None => VNum 0 end.

(** The elements the loop of the agent runs over. *)
Definition elements (parsed : value) : list value :=
  match py_iter parsed with Ok l => l | Raise _ => [] end.

(** A body whose only candidate has a text for a score. *)
Definition text_score_body : string :=
  let q := PyStr.dq in
  "{" ++ q ++ "foods" ++ q ++ ":[{" ++ q ++ "score" ++ q ++ ":" ++ q ++ "high"
  ++ q ++ "}]}".

(** A body with a numeric score followed by a text score. *)
Definition mixed_scores_body : string :=
  let q := PyStr.dq in
  "{" ++ q ++ "foods" ++ q ++ ":[{" ++ q ++ "score" ++ q ++ ":7},{"
  ++ q ++ "score" ++ q ++ ":" ++ q ++ "high" ++ q ++ "}]}".

(** A nutrient record whose value, 0 when absent, is a number. *)
Definition numeric_record (e : value) : Prop :=
  nutrient_record e /\
  exists d, e = VDict d /\ num_of (entry_value d) <> None.

(** The number a key gets from a list of entries: that of the last entry
    assigned to the key, 0 when there is none. *)
Definition extracted_amount (key : string) (entries : list value) : Q :=
  match last_assigned key entries with
  | Some x => match num_of x with Some q => q | None => 0%Q end
  | None => 0%Q
  end.

(** * Facts *)

(** ** Dicts *)

Module DictFacts.

Lemma get_set_same (k : string) (v : value) (d : dict) :
  dict_get k (dict_set k v d) = Some v.
Proof.
  induction d as [|[k' v'] d IH]; simpl.
  - now rewrite String.eqb_refl.
  - destruct (String.eqb k k') eqn:E; simpl; rewrite E; auto.
Qed.

Lemma get_set_other (k k' : string) (v : value) (d : dict) :
  k <> k' -> dict_get k' (dict_set k v d) = dict_get k' d.
Proof.
  intros Hne. induction d as [|[k0 v0] d IH]; simpl.
  - destruct (String.eqb_spec k' k); congruence.
  - destruct (String.eqb_spec k k0) as [->|Hk]; simpl.
    + destruct (String.eqb_spec k' k0); congruence.
    + rewrite IH. reflexivity.
Qed.

Lemma get_set (k k' : string) (v : value) (d : dict) :
  dict_get k' (dict_set k v d) =
  if String.eqb k' k then Some v else dict_get k' d.
Proof.
  destruct (String.eqb_spec k' k) as [->|Hne].
  - apply get_set_same.
  - apply get_set_other. congruence.
Qed.

Lemma in_keys_get (k : string) (d : dict) :
  In k (dict_keys d) <-> dict_get k d <> None.
Proof.
  unfold dict_keys. induction d as [|[k' v'] d IH]; simpl.
  - tauto.
  - destruct (String.eqb_spec k k') as [->|Hne].
    + split; [discriminate | auto].
    + rewrite <- IH. split; [intros [H|H]; congruence | auto].
Qed.

Lemma set_unchanged (k : string) (v : value) (d : dict) :
  dict_get k d = Some v -> dict_set k v d = d.
Proof.
  induction d as [|[k' v'] d IH]; simpl; [discriminate|].
  destruct (String.eqb_spec k k') as [->|Hne].
  - now intros [= ->].
  - intros H. now rewrite IH.
Qed.

End DictFacts.

(** ** Strings *)

Module StrFacts.

Import PyStr.

Lemma app_assoc (a b c : string) :
  ((a ++ b) ++ c)%string = (a ++ (b ++ c))%string.
Proof. induction a as [|x a IH]; simpl; [reflexivity|now rewrite IH]. Qed.

Lemma app_nil_r (a : string) : (a ++ "")%string = a.
Proof. induction a as [|x a IH]; simpl; [reflexivity|now rewrite IH]. Qed.

Lemma length_app (a b : string) :
  String.length (a ++ b) = String.length a + String.length b.
Proof. induction a as [|x a IH]; simpl; [reflexivity|now rewrite IH]. Qed.

(** Two ways to cut the same text. *)
Lemma app_split (a b c d : string) :
  (a ++ b)%string = (c ++ d)%string ->
  String.length a <= String.length c ->
  exists x, c = (a ++ x)%string /\ b = (x ++ d)%string.
Proof.
  revert c. induction a as [|x a IH]; intros c Heq Hlen.
  - exists c. split; [reflexivity|exact Heq].
  - destruct c as [|y c]; simpl in Hlen; [lia|].
    simpl in Heq. injection Heq as -> Heq.
    destruct (IH c Heq ltac:(lia)) as (z & -> & ->).
    exists z. split; reflexivity.
Qed.

Lemma app_same_length (a b c d : string) :
  (a ++ b)%string = (c ++ d)%string ->
  String.length a = String.length c ->
  a = c /\ b = d.
Proof.
  intros Heq Hlen.
  destruct (app_split a b c d Heq ltac:(lia)) as (x & -> & ->).
  rewrite length_app in Hlen.
  destruct x; simpl in Hlen; [|lia].
  now rewrite app_nil_r.
Qed.

Lemma prefixb_app (p r : string) : prefixb p (p ++ r) = true.
Proof.
  induction p as [|x p IH]; simpl; [reflexivity|].
  now rewrite Ascii.eqb_refl.
Qed.

Lemma prefixb_drop (p s : string) :
  prefixb p s = true -> s = (p ++ drop (String.length p) s)%string.
Proof.
  revert s. induction p as [|x p IH]; intros s H; simpl in *; [reflexivity|].
  destruct s as [|y s]; [discriminate|].
  apply andb_prop in H as [Hxy Hp]. apply Ascii.eqb_eq in Hxy as ->.
  now rewrite <- (IH s Hp).
Qed.

Lemma find_first_sound (sep s a b : string) :
  find_first sep s = Some (a, b) -> first_occurrence sep s a b.
Proof.
  revert a b. induction s as [|c s IH]; intros a b; simpl.
  - destruct (prefixb sep "") eqn:E; [|discriminate].
    intros [= <- <-]. split; [apply (prefixb_drop _ _ E)|simpl; lia].
  - destruct (prefixb sep (String c s)) eqn:E.
    + intros [= <- <-]. split; [apply (prefixb_drop _ _ E)|simpl; lia].
    + destruct (find_first sep s) as [[a' b']|]; [|discriminate].
      intros [= <- <-]. destruct (IH a' b' eq_refl) as [Hs Hmin].
      split; [simpl; now rewrite <- Hs|].
      intros p r Hp. destruct p as [|y p].
      * simpl in Hp. rewrite Hp, prefixb_app in E. discriminate.
      * simpl in Hp. injection Hp as _ Hp. simpl.
        apply le_n_S. now apply (Hmin p r).
Qed.

Lemma find_first_none (sep s : string) :
  find_first sep s = None -> no_occurrence sep s.
Proof.
  induction s as [|c s IH]; simpl.
  - destruct (prefixb sep "") eqn:E; [discriminate|].
    intros _ p r Hp. destruct p; simpl in Hp.
    + rewrite Hp, prefixb_app in E. discriminate.
    + discriminate.
  - destruct (prefixb sep (String c s)) eqn:E; [discriminate|].
    destruct (find_first sep s) as [[a b]|]; [discriminate|].
    intros _ p r Hp. destruct p as [|y p]; simpl in Hp.
    + rewrite Hp, prefixb_app in E. discriminate.
    + injection Hp as _ Hp. now apply (IH eq_refl p r).
Qed.

Lemma first_occurrence_find (sep s a b : string) :
  first_occurrence sep s a b -> find_first sep s = Some (a, b).
Proof.
  intros [Hs Hmin].
  destruct (find_first sep s) as [[a' b']|] eqn:E.
  - destruct (find_first_sound _ _ _ _ E) as [Hs' Hmin'].
    assert (Hlen : String.length a' = String.length a).
    { apply Nat.le_antisymm; [now apply (Hmin' a b)|now apply (Hmin a' b')]. }
    rewrite Hs in Hs'.
    destruct (app_same_length _ _ _ _ Hs' (eq_sym Hlen)) as [-> Hr].
    destruct (app_same_length sep b sep b' Hr eq_refl) as [_ ->].
    reflexivity.
  - exfalso. apply (find_first_none _ _ E a b Hs).
Qed.

Lemma no_occurrence_find (sep s : string) :
  no_occurrence sep s -> find_first sep s = None.
Proof.
  intros Hno. destruct (find_first sep s) as [[a b]|] eqn:E; [|reflexivity].
  destruct (find_first_sound _ _ _ _ E) as [Hs _]. now apply Hno in Hs.
Qed.

(** [sub in s] holds exactly when [partition] finds an occurrence. *)
Lemma contains_find (sep s : string) :
  contains sep s = match find_first sep s with Some _ => true | None => false end.
Proof.
  induction s as [|c s IH]; simpl.
  - now destruct (prefixb sep "").
  - destruct (prefixb sep (String c s)); [reflexivity|]. simpl.
    rewrite IH. now destruct (find_first sep s) as [[a b]|].
Qed.

Lemma contains_true (sep s : string) :
  contains sep s = true <-> exists p r, s = (p ++ sep ++ r)%string.
Proof.
  rewrite contains_find. split.
  - destruct (find_first sep s) as [[a b]|] eqn:E; [|discriminate].
    intros _. exists a, b. apply (find_first_sound _ _ _ _ E).
  - intros (p & r & Hs).
    destruct (find_first sep s) as [[a b]|] eqn:E; [reflexivity|].
    exfalso. apply (find_first_none _ _ E p r Hs).
Qed.

Lemma contains_false (sep s : string) :
  contains sep s = false <-> no_occurrence sep s.
Proof.
  rewrite contains_find. split.
  - destruct (find_first sep s) as [[a b]|] eqn:E; [discriminate|].
    intros _. now apply find_first_none.
  - intros Hno. now rewrite (no_occurrence_find _ _ Hno).
Qed.

(** The text after an occurrence of a non-empty separator is shorter. *)
Lemma find_first_shorter (sep s a b : string) :
  sep <> "" -> find_first sep s = Some (a, b) ->
  String.length b < String.length s.
Proof.
  intros Hsep H. destruct (find_first_sound _ _ _ _ H) as [-> _].
  rewrite !length_app. destruct sep; [congruence|simpl; lia].
Qed.

(** The fuel of [split] is enough. *)
Lemma split_fuel_enough (sep : string) (n m : nat) (s : string) :
  sep <> "" -> String.length s <= n -> String.length s <= m ->
  split_fuel n sep s = split_fuel m sep s.
Proof.
  intros Hsep. revert m s. induction n as [|n IH]; intros m s Hn Hm.
  - destruct m; cbn [split_fuel]; [reflexivity|].
    destruct (find_first sep s) as [[a b]|] eqn:E; [|reflexivity].
    apply (find_first_shorter _ _ _ _ Hsep) in E. lia.
  - cbn [split_fuel]. destruct (find_first sep s) as [[a b]|] eqn:E.
    + pose proof (find_first_shorter _ _ _ _ Hsep E) as Hlt.
      destruct m as [|m]; [lia|]. cbn [split_fuel]. rewrite E.
      f_equal. apply IH; lia.
    + destruct m; cbn [split_fuel]; [reflexivity|now rewrite E].
Qed.

(** [split] cuts at the first occurrence and goes on with the rest. *)
Lemma split_unfold (sep s : string) :
  sep <> "" ->
  split sep s =
  match find_first sep s with
  | None => [s]
  | Some (a, b) => a :: split sep b
  end.
Proof.
  intros Hsep. unfold split.
  destruct (find_first sep s) as [[a b]|] eqn:E.
  - pose proof (find_first_shorter _ _ _ _ Hsep E) as Hlt.
    destruct (String.length s) as [|n] eqn:El; [lia|].
    cbn [split_fuel]. rewrite E. f_equal. apply split_fuel_enough; auto; lia.
  - destruct (String.length s); cbn [split_fuel]; [reflexivity|now rewrite E].
Qed.

Lemma split_head (sep s : string) :
  sep <> "" -> nth_error (split sep s) 0 = Some (until sep s).
Proof.
  intros Hsep. rewrite (split_unfold _ _ Hsep). unfold until.
  now destruct (find_first sep s) as [[a b]|].
Qed.

Lemma split_second (sep s a b : string) :
  sep <> "" -> find_first sep s = Some (a, b) ->
  nth_error (split sep s) 1 = Some (until sep b).
Proof.
  intros Hsep E. rewrite (split_unfold _ _ Hsep), E. simpl.
  apply (split_head _ _ Hsep).
Qed.

(** There is no separator in the text before its first occurrence. *)
Lemma before_first_clean (sep s a b : string) :
  sep <> "" -> first_occurrence sep s a b -> no_occurrence sep a.
Proof.
  intros Hsep [Hs Hmin] p r Ha.
  assert (H : s = (p ++ sep ++ (r ++ sep ++ b))%string).
  { rewrite Hs, Ha. now rewrite !app_assoc. }
  apply Hmin in H. rewrite Ha, !length_app in H.
  destruct sep; [congruence|simpl in H; lia].
Qed.

End StrFacts.

(** ** The nutrient extractor *)

Module ExtractFacts.

(** The rule of every key, read off the table. *)
Lemma satisfies_table (name unit : string) :
  satisfies "calories" name unit
    = PyStr.contains "energy" name && PyStr.contains "kcal" unit
  /\ satisfies "protein" name unit = PyStr.contains "protein" name
  /\ satisfies "fat" name unit
    = PyStr.contains "total lipid" name || PyStr.contains "total fat" name
  /\ satisfies "carbohydrates" name unit
    = PyStr.contains "carbohydrate" name && PyStr.contains "by difference" name
  /\ satisfies "fiber" name unit
    = PyStr.contains "fiber" name && PyStr.contains "total dietary" name
  /\ satisfies "sugars" name unit
    = PyStr.contains "sugars" name && PyStr.contains "total" name
  /\ satisfies "saturated_fat" name unit
    = PyStr.contains "fatty acids" name && PyStr.contains "saturated" name
  /\ satisfies "sodium" name unit = PyStr.contains "sodium" name.
Proof.
  unfold satisfies, rules. cbn [existsb fst snd String.eqb Ascii.eqb Bool.eqb andb orb].
  rewrite ?orb_false_r. repeat split; reflexivity.
Qed.

(** The [if]/[elif] chain is the search for the first satisfied rule. *)
Lemma chain_is_earliest_rule (nutrients : dict) (value : value)
  (name unit : string) :
  (if PyStr.contains "energy" name && PyStr.contains "kcal" unit then
     dict_set "calories" value nutrients
   else if PyStr.contains "protein" name then
     dict_set "protein" value nutrients
   else if PyStr.contains "total lipid" name
           || PyStr.contains "total fat" name then
     dict_set "fat" value nutrients
   else if PyStr.contains "carbohydrate" name
           && PyStr.contains "by difference" name then
     dict_set "carbohydrates" value nutrients
   else if PyStr.contains "fiber" name
           && PyStr.contains "total dietary" name then
     dict_set "fiber" value nutrients
   else if PyStr.contains "sugars" name && PyStr.contains "total" name then
     dict_set "sugars" value nutrients
   else if PyStr.contains "fatty acids" name
           && PyStr.contains "saturated" name then
     dict_set "saturated_fat" value nutrients
   else if PyStr.contains "sodium" name then
     dict_set "sodium" value nutrients
   else nutrients)
  = match earliest_rule name unit with
    | Some key => dict_set key value nutrients
    | None => nutrients
    end.
Proof.
  unfold earliest_rule, fixed_keys. cbn [find].
  destruct (satisfies_table name unit)
    as (-> & -> & -> & -> & -> & -> & -> & ->).
  repeat match goal with
         | |- context [if ?b then _ else _] => destruct b; try reflexivity
         end.
Qed.

Lemma str_field_get (k : string) (d : dict) (s : string) :
  str_field k d = Some s ->
  py_lower (match dict_get k d with Some x => x | None => VStr "" end)
  = Ok (PyStr.lower s).
Proof.
  unfold str_field. destruct (dict_get k d) as [[]|]; try discriminate;
    now intros [= ->].
Qed.

(** One pass of the loop on a nutrient record. *)
Lemma extract_step_record (nutrients d : dict) (name unit : string) :
  str_field "nutrientName" d = Some name ->
  str_field "unitName" d = Some unit ->
  extract_step nutrients (VDict d)
  = Ok match earliest_rule (PyStr.lower name) (PyStr.lower unit) with
       | Some key => dict_set key (entry_value d) nutrients
       | None => nutrients
       end.
Proof.
  intros Hn Hu. unfold extract_step, py_get, rbind.
  rewrite (str_field_get _ _ _ Hn), (str_field_get _ _ _ Hu).
  f_equal. apply chain_is_earliest_rule.
Qed.

Lemma extract_step_assignment (nutrients : dict) (e : value) :
  nutrient_record e ->
  extract_step nutrients e
  = Ok match assignment e with
       | Some (key, v) => dict_set key v nutrients
       | None => nutrients
       end.
Proof.
  intros (d & name & unit & -> & Hn & Hu).
  rewrite (extract_step_record _ _ _ _ Hn Hu).
  unfold assignment. rewrite Hn, Hu.
  now destruct (earliest_rule _ _).
Qed.

Lemma earliest_rule_fixed (name unit key : string) :
  earliest_rule name unit = Some key -> In key fixed_keys.
Proof. intros H. apply find_some in H. tauto. Qed.

(** [find] returns the first element that passes the test. *)
Lemma find_first_hit {A : Type} (f : A -> bool) (l : list A) (x : A) :
  find f l = Some x ->
  exists before after,
    l = before ++ x :: after /\ f x = true /\
    forall y, In y before -> f y = false.
Proof.
  induction l as [|a l IH]; simpl; [discriminate|].
  destruct (f a) eqn:E.
  - intros [= ->]. exists [], l. simpl. tauto.
  - intros H. destruct (IH H) as (b & c & -> & Hx & Hb).
    exists (a :: b), c. simpl. repeat split; auto.
    intros y [<-|Hy]; auto.
Qed.

Lemma last_assigned_fixed (key : string) (entries : list value) (v : value) :
  last_assigned key entries = Some v -> In key fixed_keys.
Proof.
  unfold last_assigned. induction entries as [|e rest IH]; simpl; [discriminate|].
  destruct (last_picked _ rest) as [w|]; [intros H; now apply IH|].
  unfold assignment. destruct e; try discriminate.
  destruct (str_field "nutrientName" d) as [name|]; try discriminate.
  destruct (str_field "unitName" d) as [unit|]; try discriminate.
  destruct (earliest_rule _ _) as [k|] eqn:E; try discriminate.
  destruct (String.eqb_spec k key) as [<-|]; try discriminate.
  intros _. eapply earliest_rule_fixed; eauto.
Qed.

(** The loop from any starting mapping: a key holds the value of the last
    entry assigned to it, or what it held before. *)
Lemma rfold_extract (entries : list value) :
  Forall nutrient_record entries ->
  forall acc, exists m,
    rfold extract_step entries acc = Ok m /\
    forall key,
      dict_get key m =
      match last_assigned key entries with
      | Some v => Some v
      | None => dict_get key acc
      end.
Proof.
  induction 1 as [|e rest He _ IH]; intros acc.
  - exists acc. split; reflexivity.
  - simpl. rewrite (extract_step_assignment acc e He).
    destruct (IH (match assignment e with
                  | Some (key, v) => dict_set key v acc
                  | None => acc end)) as (m & Hm & Hget).
    exists m. split; [exact Hm|]. intros key. rewrite Hget.
    unfold last_assigned. simpl.
    destruct (last_picked _ rest) as [w|]; [reflexivity|].
    destruct (assignment e) as [[k v]|]; [|reflexivity].
    rewrite DictFacts.get_set, String.eqb_sym.
    now destruct (String.eqb k key).
Qed.

End ExtractFacts.

(** C9: in [extract_nutrients] an entry is assigned to at most one key, the
    first key of the order calories, protein, fat, carbohydrates, fiber,
    sugars, saturated_fat, sodium whose rule its lower-cased name and unit
    satisfy: the loop body writes the entry's value under that key and
    leaves every other key as it was, and it writes nothing when no rule is
    satisfied. *)
Theorem extract_step_assigns_earliest_rule
  (nutrients d : dict) (name unit : string) :
  str_field "nutrientName" d = Some name ->
  str_field "unitName" d = Some unit ->
  let lname := PyStr.lower name in
  let lunit := PyStr.lower unit in
  exists nutrients',
    extract_step nutrients (VDict d) = Ok nutrients' /\
    (forall key,
        earliest_rule lname lunit = Some key ->
        nutrients' = dict_set key (entry_value d) nutrients /\
        (exists before after,
            fixed_keys = before ++ key :: after /\
            satisfies key lname lunit = true /\
            forall k, In k before -> satisfies k lname lunit = false) /\
        forall k, k <> key -> dict_get k nutrients' = dict_get k nutrients) /\
    (earliest_rule lname lunit = None ->
     nutrients' = nutrients /\
     forall k, In k fixed_keys -> satisfies k lname lunit = false).
Proof.
  intros Hn Hu lname lunit.
  eexists. split; [apply (ExtractFacts.extract_step_record _ _ _ _ Hn Hu)|].
  fold lname lunit. split.
  - intros key Hk. rewrite Hk. split; [reflexivity|]. split.
    + apply (ExtractFacts.find_first_hit _ _ _ Hk).
    + intros k Hne. apply DictFacts.get_set_other. congruence.
  - intros Hk. rewrite Hk. split; [reflexivity|].
    intros k Hin. apply (find_none _ _ Hk k Hin).
Qed.

(** The theorem on an entry whose name satisfies the rules of calories and
    of protein: only calories is written. *)
Lemma extract_step_assigns_earliest_rule_witness :
  exists nutrients',
    extract_step [("protein", VNum 1)]
      (VDict [("nutrientName", VStr "Energy from Protein");
              ("value", VNum 7); ("unitName", VStr "KCAL")])
    = Ok nutrients' /\
    nutrients' = [("protein", VNum 1); ("calories", VNum 7)].
Proof.
  destruct (extract_step_assigns_earliest_rule [("protein", VNum 1)]
              [("nutrientName", VStr "Energy from Protein");
               ("value", VNum 7); ("unitName", VStr "KCAL")]
              "Energy from Protein" "KCAL" eq_refl eq_refl)
    as (n' & Hstep & Hsome & _).
  exists n'. split; [exact Hstep|].
  destruct (Hsome "calories" eq_refl) as (-> & _). reflexivity.
Defined.

(** C1 (as amended): on a list of nutrient records [extract_nutrients]
    returns a mapping whose keys are among the eight fixed keys, and every
    key holds the value of the last entry assigned to it, an entry being
    assigned to the first key of the priority order whose rule it
    satisfies; a key to which no entry is assigned is absent. *)
Theorem extract_nutrients_last_assigned (d : dict) (entries : list value) :
  py_get (VDict d) "foodNutrients" (VList []) = Ok (VList entries) ->
  Forall nutrient_record entries ->
  exists m,
    extract_nutrients (VDict d) = Ok m /\
    (forall key, In key (dict_keys m) -> In key fixed_keys) /\
    (forall key, dict_get key m = last_assigned key entries).
Proof.
  intros Hget Hall. unfold extract_nutrients. rewrite Hget. simpl.
  destruct (ExtractFacts.rfold_extract entries Hall []) as (m & Hm & Hk).
  exists m. split; [exact Hm|].
  assert (Hlast : forall key, dict_get key m = last_assigned key entries).
  { intros key. rewrite Hk. simpl. now destruct (last_assigned key entries). }
  split; [|exact Hlast].
  intros key Hin. apply DictFacts.in_keys_get in Hin. rewrite Hlast in Hin.
  destruct (last_assigned key entries) as [v|] eqn:E; [|congruence].
  eapply ExtractFacts.last_assigned_fixed; eauto.
Qed.

(** ** The meal aggregator *)

Module TotalsFacts.

(** Addition of exact numbers, as the terms the model computes. *)
Lemma Qplus_zero (x : Q) : (x + 0)%Q = x.
Proof.
  destruct x as [n d]. unfold Qplus. simpl.
  now rewrite Z.mul_1_r, Z.add_0_r, Pos.mul_1_r.
Qed.

Lemma Qplus_swap (x y z : Q) : (x + y + z)%Q = (x + z + y)%Q.
Proof.
  destruct x as [a b], y as [c d], z as [e f]. unfold Qplus. simpl.
  f_equal; [|lia].
  rewrite !Pos2Z.inj_mul. ring.
Qed.

Lemma totals_of_ext (f g : string -> Q) :
  (forall key, In key fixed_keys -> f key = g key) ->
  totals_of f = totals_of g.
Proof.
  intros H. unfold totals_of. apply map_ext_in. intros k Hk. now rewrite H.
Qed.

Lemma totals_of_get (f : string -> Q) (key : string) :
  In key fixed_keys -> dict_get key (totals_of f) = Some (VNum (f key)).
Proof.
  intros Hin. simpl in Hin.
  repeat (destruct Hin as [<-|Hin]; [reflexivity|]). contradiction.
Qed.

(** [add_key] adds the amount [key_delta] announces. *)
Lemma add_key_delta (n : value) (totals : dict) (key : string) (v : Q) :
  dict_get key totals = Some (VNum v) ->
  add_key n totals key
  = (q <- key_delta n key ;; Ok (dict_set key (VNum (v + q)) totals))%result.
Proof.
  intros Hget. unfold add_key, key_delta.
  destruct (py_in key n) as [[|]|e]; simpl; [| |reflexivity].
  - rewrite Hget. simpl.
    destruct (py_getitem n key) as [x|e]; simpl; [|reflexivity].
    unfold py_add. simpl.
    destruct (num_of x) as [q|] eqn:E; simpl; [reflexivity|].
    destruct x; simpl in E; try discriminate; reflexivity.
  - now rewrite Qplus_zero, (DictFacts.set_unchanged _ _ _ Hget).
Qed.

Ltac step_key n k :=
  erewrite (add_key_delta n _ k) by reflexivity;
  destruct (key_delta n k); [|reflexivity];
  cbn [rbind rfold dict_set String.eqb Ascii.eqb Bool.eqb].

(** [add_item] adds the amounts [item_delta] announces. *)
Lemma add_item_delta (f : string -> Q) (item : value) :
  add_item (totals_of f) item
  = (g <- item_delta item ;;
     Ok (totals_of (fun key => (f key + g key)%Q)))%result.
Proof.
  unfold add_item, item_delta.
  destruct (py_get item "nutrients" (VDict [])) as [n|e]; [|reflexivity].
  unfold totals_of, fixed_keys, dict_keys.
  cbn [rbind map fst rfold].
  step_key n "calories". step_key n "protein". step_key n "fat".
  step_key n "carbohydrates". step_key n "fiber". step_key n "sugars".
  step_key n "saturated_fat". step_key n "sodium".
  reflexivity.
Qed.

Lemma key_delta_contribution (n : dict) (key : string) :
  (forall x, dict_get key n = Some x -> num_of x <> None) ->
  key_delta (VDict n) key
  = Ok match dict_get key n with
       | Some x => match num_of x with Some q => q | None => 0%Q end
       | None => 0%Q
       end.
Proof.
  intros Hnum. unfold key_delta, py_in, py_getitem, dict_mem. simpl.
  destruct (dict_get key n) as [x|]; [|reflexivity]. simpl.
  specialize (Hnum x eq_refl). now destruct (num_of x).
Qed.

Lemma item_delta_contribution (item : value) :
  meal_item item ->
  exists g,
    item_delta item = Ok g /\
    forall key, In key fixed_keys -> g key = contribution key item.
Proof.
  intros (n & Hn & Hnum).
  assert (Hget : py_get item "nutrients" (VDict []) = Ok (VDict n)).
  { unfold item_nutrients in Hn. destruct item; try discriminate. simpl.
    destruct (dict_get "nutrients" d) as [[]|]; try discriminate;
      now injection Hn as ->. }
  unfold item_delta. rewrite Hget. cbn [rbind].
  assert (Hk : forall key, In key fixed_keys ->
                key_delta (VDict n) key = Ok (contribution key item)).
  { intros key Hin. unfold contribution. rewrite Hn.
    apply key_delta_contribution. intros x. now apply Hnum. }
  rewrite !Hk by (simpl; tauto). cbn [rbind].
  eexists. split; [reflexivity|].
  intros key Hin. simpl in Hin.
  repeat (destruct Hin as [<-|Hin]; [reflexivity|]). contradiction.
Qed.

Lemma fold_totals (items : list value) :
  Forall meal_item items ->
  forall f,
    rfold add_item items (totals_of f)
    = Ok (totals_of
            (fun key => fold_left Qplus (map (contribution key) items) (f key))).
Proof.
  induction 1 as [|x l Hx _ IH]; intros f; [reflexivity|].
  simpl. rewrite add_item_delta.
  destruct (item_delta_contribution x Hx) as (g & -> & Hg). cbn [rbind].
  rewrite IH. f_equal. apply totals_of_ext. intros key Hin.
  now rewrite (Hg key Hin).
Qed.

Lemma same_outcome_refl (a : result dict) : same_outcome a a.
Proof. now destruct a. Qed.

Lemma same_outcome_trans (a b c : result dict) :
  same_outcome a b -> same_outcome b c -> same_outcome a c.
Proof. destruct a, b, c; simpl; try tauto; congruence. Qed.

Lemma fold_permutation (l1 l2 : list value) :
  Permutation l1 l2 ->
  forall f,
    same_outcome (rfold add_item l1 (totals_of f))
                 (rfold add_item l2 (totals_of f)).
Proof.
  induction 1 as [|x l l' _ IH|x y l|l l' l'' _ IH1 _ IH2]; intros f.
  - reflexivity.
  - simpl. rewrite add_item_delta.
    destruct (item_delta x) as [g|e]; simpl; [apply IH|exact I].
  - simpl. rewrite !add_item_delta.
    destruct (item_delta y) as [gy|ey] eqn:Ey,
             (item_delta x) as [gx|ex] eqn:Ex; simpl;
      rewrite ?add_item_delta, ?Ex, ?Ey; simpl; try exact I.
    rewrite (totals_of_ext _ (fun key => (f key + gx key + gy key)%Q)).
    + apply same_outcome_refl.
    + intros key _. apply Qplus_swap.
  - eapply same_outcome_trans; [apply IH1|apply IH2].
Qed.

End TotalsFacts.


(** C6: [calculate_meal_totals] does not depend on the order of the items:
    on two lists that are permutations of each other it returns the same
    totals, or raises on both.  Numbers are exact here, so the rounding
    order of floating-point sums plays no part. *)
Theorem calculate_meal_totals_permutation (l1 l2 : list value) :
  Permutation l1 l2 ->
  same_outcome (calculate_meal_totals l1) (calculate_meal_totals l2).
Proof.
  intros Hperm. apply (TotalsFacts.fold_permutation l1 l2 Hperm (fun _ => 0%Q)).
Qed.

(** ** The food parser *)

Module ParseFacts.

Import PyStr.

Lemma fence_nonempty : fence <> "".
Proof. discriminate. Qed.

Lemma fence_json_nonempty : fence_json <> "".
Proof. discriminate. Qed.

Lemma fence_json_app : fence_json = (fence ++ "json")%string.
Proof. reflexivity. Qed.

(** An occurrence of the tagged fence is an occurrence of the fence. *)
Lemma no_fence_no_fence_json (s : string) :
  no_occurrence fence s -> no_occurrence fence_json s.
Proof.
  intros Hno p r Hs. apply (Hno p ("json" ++ r)%string).
  rewrite Hs, fence_json_app. now rewrite StrFacts.app_assoc.
Qed.

Lemma until_clean (sep s : string) :
  no_occurrence sep s -> until sep s = s.
Proof.
  intros Hno. unfold until. now rewrite (StrFacts.no_occurrence_find _ _ Hno).
Qed.

Lemma until_first (sep s a b : string) :
  first_occurrence sep s a b -> until sep s = a.
Proof.
  intros H. unfold until. now rewrite (StrFacts.first_occurrence_find _ _ _ _ H).
Qed.

Lemma until_until (sep s : string) :
  sep <> "" -> until sep (until sep s) = until sep s.
Proof.
  intros Hsep. unfold until at 2 3.
  destruct (find_first sep s) as [[a b]|] eqn:E.
  - apply until_clean.
    apply (StrFacts.before_first_clean sep s a b Hsep).
    now apply StrFacts.find_first_sound.
  - apply until_clean. now apply StrFacts.find_first_none.
Qed.

(** After a tagged fence, an unclosed block runs to the end. *)
Lemma json_block_open (rest : string) :
  no_occurrence fence rest -> until fence (until fence_json rest) = rest.
Proof.
  intros Hno.
  rewrite (until_clean fence_json rest (no_fence_no_fence_json _ Hno)).
  now apply until_clean.
Qed.

(** After a tagged fence, the block ends at the next fence, provided no
    fourth backtick follows that fence. *)
Lemma json_block_closed (rest body post : string) :
  first_occurrence fence rest body post ->
  starts_with_backtick post = false ->
  until fence (until fence_json rest) = body.
Proof.
  intros Hfirst Hpost. pose proof Hfirst as [Hrest Hmin].
  unfold until at 2.
  destruct (find_first fence_json rest) as [[r1 r2]|] eqn:E;
    [|now apply until_first with post].
  destruct (StrFacts.find_first_sound _ _ _ _ E) as [Hr _].
  assert (Hr' : rest = (r1 ++ fence ++ ("json" ++ r2))%string).
  { rewrite Hr, fence_json_app. now rewrite StrFacts.app_assoc. }
  pose proof (Hmin _ _ Hr') as Hlen.
  rewrite Hrest in Hr'.
  destruct (StrFacts.app_split _ _ _ _ Hr' Hlen) as (x & -> & Hx).
  destruct x as [|c1 [|c2 [|c3 x]]].
  - rewrite StrFacts.app_nil_r. apply until_clean.
    apply (StrFacts.before_first_clean fence rest body post fence_nonempty Hfirst).
  - exfalso. simpl in Hx. injection Hx as _ Hx. rewrite Hx in Hpost.
    discriminate.
  - exfalso. simpl in Hx. injection Hx as _ _ Hx. rewrite Hx in Hpost.
    discriminate.
  - simpl in Hx. injection Hx as <- <- <- Hx.
    apply until_first with x. split.
    + reflexivity.
    + intros p r Hp. apply (Hmin p (r ++ fence_json ++ r2)%string).
      rewrite Hr, Hp. now rewrite !StrFacts.app_assoc.
Qed.

(** The three branches of the post-processing. *)
Lemma extract_tagged (content pre rest : string) :
  first_occurrence fence_json content pre rest ->
  extract_json_text content
  = Ok (strip (until fence (until fence_json rest))).
Proof.
  intros H. apply StrFacts.first_occurrence_find in H.
  unfold extract_json_text, py_index.
  rewrite StrFacts.contains_find, H.
  rewrite (StrFacts.split_second _ _ _ _ fence_json_nonempty H). cbn [rbind].
  now rewrite (StrFacts.split_head _ _ fence_nonempty).
Qed.

Lemma extract_untagged (content pre rest : string) :
  no_occurrence fence_json content ->
  first_occurrence fence content pre rest ->
  extract_json_text content = Ok (strip (until fence rest)).
Proof.
  intros Hno H. apply StrFacts.first_occurrence_find in H.
  apply StrFacts.contains_false in Hno.
  unfold extract_json_text, py_index. rewrite Hno.
  rewrite StrFacts.contains_find, H.
  rewrite (StrFacts.split_second _ _ _ _ fence_nonempty H). cbn [rbind].
  rewrite (StrFacts.split_head _ _ fence_nonempty).
  now rewrite (until_until _ _ fence_nonempty).
Qed.

Lemma extract_raw (content : string) :
  no_occurrence fence content -> extract_json_text content = Ok content.
Proof.
  intros Hno. unfold extract_json_text.
  pose proof (no_fence_no_fence_json _ Hno) as Hnoj.
  apply StrFacts.contains_false in Hno, Hnoj. now rewrite Hno, Hnoj.
Qed.

(** The indexing of the post-processing never fails. *)
Lemma extract_total (content : string) :
  exists s, extract_json_text content = Ok s.
Proof.
  destruct (find_first fence_json content) as [[pre rest]|] eqn:Ej.
  - eexists. apply (extract_tagged content pre rest).
    now apply StrFacts.find_first_sound.
  - apply StrFacts.find_first_none in Ej.
    destruct (find_first fence content) as [[pre rest]|] eqn:Ef.
    + eexists. apply (extract_untagged content pre rest Ej).
      now apply StrFacts.find_first_sound.
    + eexists. apply extract_raw. now apply StrFacts.find_first_none.
Qed.

(** What the caller gets when the service answers. *)
Lemma parse_answer (llm : trace -> string -> result string)
  (user_input : string) (t : trace) (content extracted : string) :
  llm t (parse_prompt user_input) = Ok content ->
  extract_json_text content = Ok extracted ->
  fst (parse_food_amount llm user_input t) = loads_or_empty extracted.
Proof.
  intros Hllm Hex. unfold parse_food_amount, loads_or_empty. simpl.
  rewrite Hllm. cbn [rbind]. rewrite Hex. cbn [rbind].
  now destruct (Json.loads extracted).
Qed.

Lemma example_loads : loads_or_empty example_json = Ok (VList [example_item]).
Proof. reflexivity. Qed.

End ParseFacts.

(** C4 (as amended): when the response holds the tagged fence, the text
    after the first tagged fence up to the next fence is stripped and
    parsed, with priority over any untagged block before it; when it holds
    only untagged fences, the text after the first fence up to the next one
    is stripped and parsed, a language tag other than json included; when
    it holds no fence the raw text is parsed.  A block that is not closed
    runs to the end of the response.  In particular a tagged block whose
    stripped content is the example array parses to the one example item
    with its two fields. *)
Theorem parse_food_amount_fenced
  (llm : trace -> string -> result string) (user_input : string) (t : trace)
  (content : string) :
  llm t (parse_prompt user_input) = Ok content ->
  let parsed := fst (parse_food_amount llm user_input t) in
  (forall pre rest body post,
      first_occurrence fence_json content pre rest ->
      first_occurrence fence rest body post ->
      starts_with_backtick post = false ->
      parsed = loads_or_empty (PyStr.strip body) /\
      (PyStr.strip body = example_json ->
       parsed = Ok (VList [example_item]))) /\
  (forall pre rest,
      first_occurrence fence_json content pre rest ->
      no_occurrence fence rest ->
      parsed = loads_or_empty (PyStr.strip rest)) /\
  (forall pre rest body post,
      no_occurrence fence_json content ->
      first_occurrence fence content pre rest ->
      first_occurrence fence rest body post ->
      parsed = loads_or_empty (PyStr.strip body)) /\
  (forall pre rest,
      no_occurrence fence_json content ->
      first_occurrence fence content pre rest ->
      no_occurrence fence rest ->
      parsed = loads_or_empty (PyStr.strip rest)) /\
  (no_occurrence fence content -> parsed = loads_or_empty content).
Proof.
  intros Hllm parsed. subst parsed.
  pose proof (ParseFacts.parse_answer llm user_input t content) as Hans.
  split; [|split; [|split; [|split]]].
  - intros pre rest body post Hj Hb Hpost.
    rewrite (Hans _ Hllm (ParseFacts.extract_tagged _ _ _ Hj)).
    rewrite (ParseFacts.json_block_closed _ _ _ Hb Hpost).
    split; [reflexivity|].
    intros ->. apply ParseFacts.example_loads.
  - intros pre rest Hj Hno.
    rewrite (Hans _ Hllm (ParseFacts.extract_tagged _ _ _ Hj)).
    now rewrite (ParseFacts.json_block_open _ Hno).
  - intros pre rest body post Hnoj Hf Hb.
    rewrite (Hans _ Hllm (ParseFacts.extract_untagged _ _ _ Hnoj Hf)).
    now rewrite (ParseFacts.until_first _ _ _ _ Hb).
  - intros pre rest Hnoj Hf Hno.
    rewrite (Hans _ Hllm (ParseFacts.extract_untagged _ _ _ Hnoj Hf)).
    now rewrite (ParseFacts.until_clean _ _ Hno).
  - intros Hno.
    now rewrite (Hans _ Hllm (ParseFacts.extract_raw _ Hno)).
Qed.

(** C5: [parse_food_amount] never raises: it returns a value and records
    its one call; when the service raises, and when the extracted text does
    not decode, the value is the empty list. *)
Theorem parse_food_amount_never_raises
  (llm : trace -> string -> result string) (user_input : string) (t : trace) :
  (exists v,
      parse_food_amount llm user_input t
      = (Ok v, t ++ [LlmInvoke (parse_prompt user_input)])) /\
  (forall e,
      llm t (parse_prompt user_input) = Raise e ->
      fst (parse_food_amount llm user_input t) = Ok (VList [])) /\
  (forall content,
      llm t (parse_prompt user_input) = Ok content ->
      exists extracted,
        extract_json_text content = Ok extracted /\
        (forall e, Json.loads extracted = Raise e ->
                   fst (parse_food_amount llm user_input t) = Ok (VList []))).
Proof.
  split; [|split].
  - unfold parse_food_amount.
    destruct (llm t (parse_prompt user_input)) as [content|e]; cbn [rbind catch].
    + destruct (ParseFacts.extract_total content) as (s & ->). cbn [rbind].
      destruct (Json.loads s); eexists; reflexivity.
    + eexists; reflexivity.
  - intros e He. unfold parse_food_amount. simpl. now rewrite He.
  - intros content Hc.
    destruct (ParseFacts.extract_total content) as (s & Hs).
    exists s. split; [exact Hs|]. intros e He.
    rewrite (ParseFacts.parse_answer llm user_input t content s Hc Hs).
    unfold loads_or_empty. now rewrite He.
Qed.

(** ** The nutrition lookup *)

Module LookupFacts.











Lemma query_usda_unfold (usda : trace -> value -> result response)
  (food_name : value) (t : trace) :
  fst (query_usda usda food_name t)
  = catch (resp <- usda t food_name ;;
           _ <- raise_for_status resp ;;
           data <- Json.loads (text resp) ;;
           select data)%result
          (fun _ => Ok (VDict [])).
Proof. reflexivity. Qed.


Lemma raise_for_status_fine (resp : response) :
  ~ (400 <= status_code resp < 600)%Z ->
  raise_for_status resp = Ok tt.
Proof.
  intros H. unfold raise_for_status.
  destruct (Z.leb_spec 400 (status_code resp));
    destruct (Z.ltb_spec (status_code resp) 600); simpl; try reflexivity.
  exfalso. apply H. lia.
Qed.

End LookupFacts.


(** ** The analysis generator *)

Module AnalysisFacts.

Lemma getitem_field (meal_totals : dict) (key : string) :
  dict_get key meal_totals <> None ->
  py_getitem (VDict meal_totals) key = Ok (totals_field meal_totals key).
Proof.
  intros H. unfold py_getitem, totals_field.
  now destruct (dict_get key meal_totals).
Qed.

End AnalysisFacts.


(** ** The orchestrator *)

Module AgentFacts.

Lemma prompts_app (t u : trace) : prompts (t ++ u) = prompts t ++ prompts u.
Proof. unfold prompts. apply flat_map_app. Qed.

Lemma searches_app (t u : trace) : searches (t ++ u) = searches t ++ searches u.
Proof. unfold searches. apply flat_map_app. Qed.

Lemma query_usda_trace (usda : trace -> value -> result response)
  (food_name : value) (t : trace) :
  snd (query_usda usda food_name t) = t ++ [UsdaSearch food_name].
Proof. reflexivity. Qed.

Lemma query_usda_ok (usda : trace -> value -> result response)
  (food_name : value) (t : trace) :
  exists v, query_usda usda food_name t = (Ok v, t ++ [UsdaSearch food_name]).
Proof.
  unfold query_usda.
  match goal with
  | |- context [catch ?r _] => destruct r; eexists; reflexivity
  end.
Qed.

(** The loop sends no prompt. *)
Lemma resolve_items_prompts (usda : trace -> value -> result response)
  (items : list value) :
  forall meal_info t,
    prompts (snd (resolve_items usda items meal_info t)) = prompts t.
Proof.
  induction items as [|item rest IH]; intros meal_info t; [reflexivity|].
  cbn [resolve_items]. unfold mbind, lift.
  destruct (py_get item "food" (VStr "")) as [food|e]; [|reflexivity].
  destruct (py_get item "amount" (VStr "")) as [amount|e]; [|reflexivity].
  destruct (negb (truthy food)); [apply IH|].
  destruct (query_usda_ok usda food t) as (data & ->).
  assert (Hp : prompts (t ++ [UsdaSearch food]) = prompts t).
  { rewrite prompts_app. simpl. apply app_nil_r. }
  destruct (negb (truthy data)); [now rewrite IH|].
  destruct (extract_nutrients data); [now rewrite IH|exact Hp].
Qed.



(** An item that is not a dict stops the loop. *)
Lemma stop_at_non_dict (usda : trace -> value -> result response)
  (item : value) (rest meal_info : list value) (t : trace) :
  is_dict item = false ->
  resolve_items usda (item :: rest) meal_info t = (Raise AttributeError, t).
Proof.
  intros H. cbn [resolve_items]. unfold mbind, lift.
  destruct item; try discriminate; reflexivity.
Qed.

Lemma resolve_items_app (usda : trace -> value -> result response)
  (pre post : list value) :
  forall meal_info t,
    resolve_items usda (pre ++ post) meal_info t
    = match resolve_items usda pre meal_info t with
      | (Ok meal_info', t') => resolve_items usda post meal_info' t'
      | (Raise e, t') => (Raise e, t')
      end.
Proof.
  induction pre as [|item pre IH]; intros meal_info t; [reflexivity|].
  cbn [app resolve_items]. unfold mbind, lift.
  destruct (py_get item "food" (VStr "")) as [food|e]; [|reflexivity].
  destruct (py_get item "amount" (VStr "")) as [amount|e]; [|reflexivity].
  destruct (negb (truthy food)); [apply IH|].
  destruct (query_usda usda food t) as [[data|e] t']; [|reflexivity].
  destruct (negb (truthy data)); [apply IH|].
  destruct (extract_nutrients data); [apply IH|reflexivity].
Qed.

(** The agent after the parser has answered. *)
Lemma agent_after_parse
  (llm : trace -> string -> result string)
  (usda : trace -> value -> result response) (py_format : value -> string)
  (user_input : string) (t t1 : trace) (parsed : value) :
  parse_food_amount llm user_input t = (Ok parsed, t1) ->
  nutrition_agent llm usda py_format user_input t
  = if negb (truthy parsed) then (Ok no_foods_message, t1)
    else
      match py_iter parsed with
      | Raise e => (Raise e, t1)
      | Ok items =>
          match resolve_items usda items [] t1 with
          | (Raise e, t2) => (Raise e, t2)
          | (Ok [], t2) => (Ok no_data_message, t2)
          | (Ok (x :: l), t2) =>
              match calculate_meal_totals (x :: l) with
              | Raise e => (Raise e, t2)
              | Ok meal_totals => generate_analysis llm py_format meal_totals t2
              end
          end
      end.
Proof.
  intros Hp. unfold nutrition_agent, mbind at 1. rewrite Hp.
  destruct (negb (truthy parsed)); [reflexivity|].
  unfold mbind, lift, mret.
  destruct (py_iter parsed) as [items|e]; [|reflexivity].
  destruct (resolve_items usda items [] t1) as [[[|x l]|e] t2]; reflexivity.
Qed.

Lemma truthy_iter_nonempty (parsed : value) (items : list value) :
  truthy parsed = true -> py_iter parsed = Ok items -> items <> [].
Proof.
  destruct parsed as [| | |s|l|d]; simpl; try discriminate.
  - destruct s; [discriminate|]. intros _ [= <-]. discriminate.
  - destruct l; [discriminate|]. intros _ [= <-]. discriminate.
  - destruct d; [discriminate|]. intros _ [= <-]. discriminate.
Qed.

End AgentFacts.


(** C10: when the parser returns a truthy value whose elements are not
    objects, [nutrition_agent] raises [AttributeError] at the first
    element and returns neither failure message; more generally it raises
    at the first element that is not an object once the elements before it
    have been processed. *)
Theorem nutrition_agent_raises_on_non_objects
  (llm : trace -> string -> result string)
  (usda : trace -> value -> result response) (py_format : value -> string)
  (user_input : string) (t t1 : trace) (parsed : value) (items : list value) :
  parse_food_amount llm user_input t = (Ok parsed, t1) ->
  truthy parsed = true ->
  py_iter parsed = Ok items ->
  (Forall (fun item => is_dict item = false) items ->
   nutrition_agent llm usda py_format user_input t = (Raise AttributeError, t1))
  /\
  (forall before item after meal_info t2,
      items = before ++ item :: after ->
      is_dict item = false ->
      resolve_items usda before [] t1 = (Ok meal_info, t2) ->
      nutrition_agent llm usda py_format user_input t
      = (Raise AttributeError, t2)).
Proof.
  intros Hparse Htruthy Hiter.
  assert (Hgen : forall before item after meal_info t2,
             items = before ++ item :: after ->
             is_dict item = false ->
             resolve_items usda before [] t1 = (Ok meal_info, t2) ->
             nutrition_agent llm usda py_format user_input t
             = (Raise AttributeError, t2)).
  { intros before item after meal_info t2 -> Hitem Hbefore.
    rewrite (AgentFacts.agent_after_parse _ _ _ _ _ _ _ Hparse).
    rewrite Htruthy, Hiter. cbn [negb].
    rewrite AgentFacts.resolve_items_app, Hbefore.
    now rewrite (AgentFacts.stop_at_non_dict usda item after meal_info t2 Hitem). }
  split; [|exact Hgen].
  intros Hall.
  pose proof (AgentFacts.truthy_iter_nonempty parsed items Htruthy Hiter) as Hne.
  destruct items as [|item after]; [congruence|].
  inversion Hall as [|? ? Hitem _]; subst.
  apply (Hgen [] item after [] t1 eq_refl Hitem eq_refl).
Qed.

(** ** The theorems on examples *)

(** The amended C1 on the two overlapping entries: protein keeps the value
    of the first entry, calories takes the second. *)
Lemma extract_nutrients_last_assigned_witness :
  exists m,
    extract_nutrients (VDict [("foodNutrients", VList overlapping_entries)])
    = Ok m /\
    (forall key, In key (dict_keys m) -> In key fixed_keys) /\
    (forall key, dict_get key m = last_assigned key overlapping_entries).
Proof.
  apply (extract_nutrients_last_assigned
           [("foodNutrients", VList overlapping_entries)] overlapping_entries).
  - reflexivity.
  - repeat constructor.
    + exists [("nutrientName", VStr "Protein"); ("value", VNum 5);
              ("unitName", VStr "G")], "Protein", "G".
      repeat split.
    + exists [("nutrientName", VStr "Energy from protein"); ("value", VNum 7);
              ("unitName", VStr "KCAL")], "Energy from protein", "KCAL".
      repeat split.
Defined.

(** C1 as stated fails on the two overlapping entries: the last entry whose
    name satisfies the rule of protein is the second, with value 7, and
    the mapping holds 5 under protein. *)
Lemma last_satisfying_wins_fails : ~ last_satisfying_wins overlapping_entries.
Proof.
  intros H.
  specialize (H [("protein", VNum 5); ("calories", VNum 7)] "protein" (VNum 5)
                eq_refl eq_refl).
  vm_compute in H. discriminate.
Qed.

Lemma egg_item_is_meal_item : meal_item egg_item.
Proof.
  exists [("calories", VNum 143); ("protein", VNum (25 # 2))].
  split; [reflexivity|].
  intros key x Hin Hget. simpl in Hin.
  repeat (destruct Hin as [<-|Hin];
          [simpl in Hget; first [discriminate|injection Hget as <-; discriminate]|]).
  contradiction.
Defined.



(** C6 on the egg and the coffee in both orders. *)
Lemma calculate_meal_totals_permutation_witness :
  Permutation [egg_item; coffee_item] [coffee_item; egg_item] /\
  same_outcome (calculate_meal_totals [egg_item; coffee_item])
               (calculate_meal_totals [coffee_item; egg_item]).
Proof.
  split; [apply perm_swap|].
  apply (calculate_meal_totals_permutation [egg_item; coffee_item]
           [coffee_item; egg_item]).
  apply perm_swap.
Defined.

Example totals_of_egg_and_coffee :
  calculate_meal_totals [egg_item; coffee_item]
  = Ok [("calories", VNum (0 + 143 + 2)); ("protein", VNum (0 + (25 # 2)));
        ("fat", VNum 0); ("carbohydrates", VNum 0); ("fiber", VNum 0);
        ("sugars", VNum 0); ("saturated_fat", VNum 0);
        ("sodium", VNum (0 + 5))].
Proof. reflexivity. Qed.



(** Of two candidates with the greatest score the first is returned. *)
Example first_of_equal_scores :
  fst (query_usda (usda_answers 200 three_candidates_body) (VStr "egg") [])
  = Ok (VDict [("score", VNum 5); ("description", VStr "first")]).
Proof. reflexivity. Qed.

(** An empty list of foods gives the empty result. *)
Example empty_foods_no_match :
  query_usda (usda_answers 200 no_foods_body) (VStr "mystery") []
  = (Ok (VDict []), [UsdaSearch (VStr "mystery")]).
Proof. reflexivity. Qed.

Example unreachable_no_match :
  query_usda usda_down (VStr "egg") []
  = (Ok (VDict []), [UsdaSearch (VStr "egg")]).
Proof. reflexivity. Qed.


(** The amended C4 on the round-trip example: one item with its two
    fields. *)
Lemma parse_food_amount_fenced_witness :
  fst (parse_food_amount (llm_says example_response)
         "I had 2 scrambled eggs" [])
  = Ok (VList [example_item]).
Proof.
  destruct (parse_food_amount_fenced (llm_says example_response)
              "I had 2 scrambled eggs" [] example_response eq_refl)
    as (H & _).
  destruct (H (lines ["Here are the foods:"])
              (PyStr.nl ++ example_json ++ PyStr.nl ++ fence ++ PyStr.nl)%string
              (PyStr.nl ++ example_json ++ PyStr.nl)%string
              PyStr.nl) as (_ & Hex).
  - apply StrFacts.find_first_sound. reflexivity.
  - apply StrFacts.find_first_sound. reflexivity.
  - reflexivity.
  - apply Hex. reflexivity.
Defined.

(** C4 as stated fails on a response whose first block is untagged and
    whose second block is tagged: the tagged block is parsed. *)
Lemma first_block_parsed_fails : ~ first_block_parsed.
Proof.
  intros H.
  specialize (H (llm_says two_blocks) "eggs" [] two_blocks eq_refl).
  vm_compute in H. discriminate.
Qed.

Example two_blocks_parse :
  fst (parse_food_amount (llm_says two_blocks) "eggs" []) = Ok (VList [VNum 2])
  /\ first_fenced_block two_blocks = Some (PyStr.nl ++ "[1]" ++ PyStr.nl)%string.
Proof. split; reflexivity. Qed.

(** A block with another language tag keeps its tag and does not decode. *)
Example other_tag_does_not_decode :
  fst (parse_food_amount (llm_says (lines ["```python"; "[1]"; "```"])) "eggs" [])
  = Ok (VList []).
Proof. reflexivity. Qed.

(** C5 on a truncated array and on a service that raises. *)
Lemma parse_food_amount_never_raises_witness :
  fst (parse_food_amount (llm_says truncated_response) "eggs" []) = Ok (VList [])
  /\ fst (parse_food_amount llm_down "eggs" []) = Ok (VList []).
Proof.
  split.
  - destruct (parse_food_amount_never_raises (llm_says truncated_response)
                "eggs" []) as (_ & _ & H).
    destruct (H truncated_response eq_refl) as (extracted & Hex & Hfail).
    vm_compute in Hex. injection Hex as <-.
    apply (Hfail JSONDecodeError). reflexivity.
  - destruct (parse_food_amount_never_raises llm_down "eggs" [])
      as (_ & H & _).
    apply (H OtherError). reflexivity.
Defined.


Example nothing_parsed_no_search :
  nutrition_agent llm_down usda_down format_whole "something" []
  = (Ok no_foods_message, [LlmInvoke (parse_prompt "something")]).
Proof. reflexivity. Qed.


(** Without a key read by subscript the prompt cannot be built: the
    [KeyError] is raised before the call, outside the [try]. *)
Example generate_analysis_missing_key :
  generate_analysis (llm_says "**Score: 7/10**") format_whole
    [("calories", VNum 1)] []
  = (Raise KeyError, []).
Proof. reflexivity. Qed.

(** C10 on a response that is a JSON string, and on a list whose second
    element is a number. *)
Lemma nutrition_agent_raises_on_non_objects_witness :
  nutrition_agent (llm_says json_string_response)
    (usda_answers 200 no_foods_body) format_whole "egg" []
  = (Raise AttributeError, [LlmInvoke (parse_prompt "egg")])
  /\ nutrition_agent (llm_says object_then_number)
       (usda_answers 200 no_foods_body) format_whole "egg" []
     = (Raise AttributeError,
        [LlmInvoke (parse_prompt "egg"); UsdaSearch (VStr "egg")]).
Proof.
  split.
  - destruct (nutrition_agent_raises_on_non_objects
                (llm_says json_string_response)
                (usda_answers 200 no_foods_body) format_whole "egg" []
                [LlmInvoke (parse_prompt "egg")] (VStr "egg")
                [VStr "e"; VStr "g"; VStr "g"] eq_refl eq_refl eq_refl)
      as (H & _).
    apply H. repeat constructor.
  - destruct (nutrition_agent_raises_on_non_objects
                (llm_says object_then_number)
                (usda_answers 200 no_foods_body) format_whole "egg" []
                [LlmInvoke (parse_prompt "egg")]
                (VList [VDict [("food", VStr "egg")]; VNum 5])
                [VDict [("food", VStr "egg")]; VNum 5] eq_refl eq_refl eq_refl)
      as (_ & H).
    apply (H [VDict [("food", VStr "egg")]] (VNum 5) [] []).
    + reflexivity.
    + reflexivity.
    + reflexivity.
Defined.

(** * Further properties *)

(** ** The nutrient extractor on any input *)

Module ExtractMore.

Lemma lower_field_none (k : string) (d : dict) :
  str_field k d = None ->
  py_lower (match dict_get k d with Some x => x | None => VStr "" end)
  = Raise AttributeError.
Proof.
  unfold str_field. destruct (dict_get k d) as [[]|]; try discriminate;
    reflexivity.
Qed.

(** The loop body raises [AttributeError] exactly on the entries that are
    not nutrient records. *)
Lemma record_or_raise (acc : dict) (e : value) :
  nutrient_record e \/ extract_step acc e = Raise AttributeError.
Proof.
  destruct e as [| | | | |d]; try (right; reflexivity).
  destruct (str_field "nutrientName" d) as [name|] eqn:En.
  - destruct (str_field "unitName" d) as [unit|] eqn:Eu.
    + left. now exists d, name, unit.
    + right. unfold extract_step, py_get. cbn [rbind].
      rewrite (ExtractFacts.str_field_get _ _ _ En). cbn [rbind].
      now rewrite (lower_field_none _ _ Eu).
  - right. unfold extract_step, py_get. cbn [rbind].
    now rewrite (lower_field_none _ _ En).
Qed.

Lemma step_ok_record (acc acc' : dict) (e : value) :
  extract_step acc e = Ok acc' -> nutrient_record e.
Proof.
  intros H. destruct (record_or_raise acc e) as [Hr|Hr]; [exact Hr|].
  rewrite Hr in H. discriminate.
Qed.

Lemma rfold_app {A B : Type} (f : B -> A -> result B) (l1 l2 : list A) (b : B) :
  rfold f (l1 ++ l2) b
  = match rfold f l1 b with
    | Ok b' => rfold f l2 b'
    | Raise e => Raise e
    end.
Proof.
  revert b. induction l1 as [|x l1 IH]; intros b; [reflexivity|].
  simpl. destruct (f b x); [apply IH|reflexivity].
Qed.

(** [dict_set] keeps the keys distinct and adds at most its own key. *)
Lemma set_keys (k : string) (v : value) (d : dict) :
  dict_keys (dict_set k v d)
  = if dict_mem k d then dict_keys d else dict_keys d ++ [k].
Proof.
  unfold dict_mem, dict_keys. induction d as [|[k' v'] d IH]; simpl.
  - reflexivity.
  - destruct (String.eqb_spec k k') as [->|Hne]; simpl; [reflexivity|].
    rewrite IH. now destruct (dict_get k d).
Qed.

Lemma set_keys_nodup (k : string) (v : value) (d : dict) :
  NoDup (dict_keys d) -> NoDup (dict_keys (dict_set k v d)).
Proof.
  intros Hnd. rewrite set_keys. unfold dict_mem.
  destruct (dict_get k d) eqn:E; [exact Hnd|].
  apply NoDup_app; [exact Hnd|repeat constructor; simpl; tauto|].
  intros x Hx [<-|[]]. apply DictFacts.in_keys_get in Hx. congruence.
Qed.

Lemma set_keys_incl (k : string) (v : value) (d : dict) (keys : list string) :
  In k keys -> incl (dict_keys d) keys ->
  incl (dict_keys (dict_set k v d)) keys.
Proof.
  intros Hk Hd. rewrite set_keys. destruct (dict_mem k d); [exact Hd|].
  apply incl_app; [exact Hd|]. intros x [<-|[]]. exact Hk.
Qed.

Lemma assignment_fixed (e : value) (k : string) (v : value) :
  assignment e = Some (k, v) -> In k fixed_keys.
Proof.
  unfold assignment. destruct e; try discriminate.
  destruct (str_field "nutrientName" d); try discriminate.
  destruct (str_field "unitName" d); try discriminate.
  destruct (earliest_rule _ _) eqn:E; try discriminate.
  intros [= <- _]. eapply ExtractFacts.earliest_rule_fixed; eauto.
Qed.

(** The loop keeps the keys distinct and among the fixed ones. *)
Lemma rfold_keys (l : list value) :
  forall acc m,
    rfold extract_step l acc = Ok m ->
    NoDup (dict_keys acc) -> incl (dict_keys acc) fixed_keys ->
    NoDup (dict_keys m) /\ incl (dict_keys m) fixed_keys.
Proof.
  induction l as [|e l IH]; intros acc m H Hnd Hin.
  - injection H as <-. now split.
  - simpl in H. destruct (extract_step acc e) as [acc'|] eqn:E; [|discriminate].
    pose proof (step_ok_record _ _ _ E) as Hr.
    rewrite (ExtractFacts.extract_step_assignment acc e Hr) in E.
    injection E as <-. apply (IH _ _ H).
    + destruct (assignment e) as [[k v]|]; [now apply set_keys_nodup|exact Hnd].
    + destruct (assignment e) as [[k v]|] eqn:Ea; [|exact Hin].
      apply set_keys_incl; [|exact Hin]. eapply assignment_fixed; eauto.
Qed.

(** An entry without an assignment leaves the mapping as it is. *)
Lemma rfold_filter (l : list value) :
  Forall nutrient_record l ->
  forall acc,
    rfold extract_step l acc = rfold extract_step (filter has_assignment l) acc.
Proof.
  induction 1 as [|e l He _ IH]; intros acc; [reflexivity|].
  simpl. unfold has_assignment at 1.
  rewrite (ExtractFacts.extract_step_assignment acc e He).
  destruct (assignment e) as [[k v]|] eqn:Ea.
  - simpl. rewrite (ExtractFacts.extract_step_assignment acc e He), Ea.
    apply IH.
  - apply IH.
Qed.

Lemma filter_records (f : value -> bool) (l : list value) :
  Forall nutrient_record l -> Forall nutrient_record (filter f l).
Proof.
  intros H. apply Forall_forall. intros x Hx. apply filter_In in Hx as [Hx _].
  revert x Hx. now apply Forall_forall.
Qed.

(** The keys of any mapping [extract_nutrients] returns. *)
Lemma extract_keys (usda_data : value) (m : dict) :
  extract_nutrients usda_data = Ok m ->
  NoDup (dict_keys m) /\ incl (dict_keys m) fixed_keys.
Proof.
  unfold extract_nutrients. intros H.
  destruct (py_get usda_data "foodNutrients" (VList [])) as [entries|];
    [|discriminate].
  cbn [rbind] in H. destruct (py_iter entries) as [l|]; [|discriminate].
  cbn [rbind] in H. apply (rfold_keys l [] m H); [constructor|intros x []].
Qed.



End ExtractMore.

(** X1: [extract_nutrients] raises [AttributeError] at the first entry that
    is not a nutrient record (not an object, or a name or unit that is
    present and not a string, such as null), whatever the records before
    it. *)
Theorem extract_nutrients_malformed_entry
  (d : dict) (good : list value) (bad : value) (rest : list value) :
  dict_get "foodNutrients" d = Some (VList (good ++ bad :: rest)) ->
  Forall nutrient_record good ->
  ~ nutrient_record bad ->
  extract_nutrients (VDict d) = Raise AttributeError.
Proof.
  intros Hget Hgood Hbad. unfold extract_nutrients, py_get.
  rewrite Hget. cbn [rbind py_iter].
  rewrite ExtractMore.rfold_app.
  destruct (ExtractFacts.rfold_extract good Hgood []) as (m & -> & _).
  simpl. destruct (ExtractMore.record_or_raise m bad) as [Hr | ->];
    [contradiction|reflexivity].
Qed.

Lemma extract_nutrients_malformed_entry_witness :
  extract_nutrients
    (VDict [("foodNutrients", VList [protein_entry; null_name_entry])])
  = Raise AttributeError.
Proof.
  apply (extract_nutrients_malformed_entry
           [("foodNutrients", VList [protein_entry; null_name_entry])]
           [protein_entry] null_name_entry []).
  - reflexivity.
  - repeat constructor.
    exists [("nutrientName", VStr "Protein"); ("value", VNum 5);
            ("unitName", VStr "G")], "Protein", "G".
    repeat split.
  - intros (d & name & unit & Hd & Hn & _).
    injection Hd as <-. discriminate.
Defined.

(** X2: whenever [extract_nutrients] returns, on any input, the keys of its
    mapping are distinct and among the eight fixed keys, so the mapping has
    at most eight entries. *)
Theorem extract_nutrients_keys_distinct (usda_data : value) (m : dict) :
  extract_nutrients usda_data = Ok m ->
  NoDup (dict_keys m) /\
  incl (dict_keys m) fixed_keys /\
  List.length m <= 8.
Proof.
  intros H. destruct (ExtractMore.extract_keys usda_data m H) as [Hnd Hin].
  split; [exact Hnd|]. split; [exact Hin|].
  pose proof (NoDup_incl_length Hnd Hin) as Hlen.
  unfold dict_keys in Hlen. rewrite length_map in Hlen. exact Hlen.
Qed.

Lemma extract_nutrients_keys_distinct_witness :
  NoDup (dict_keys [("protein", VNum 5); ("calories", VNum 7)]) /\
  incl (dict_keys [("protein", VNum 5); ("calories", VNum 7)]) fixed_keys /\
  List.length [("protein", VNum 5); ("calories", VNum 7)] <= 8.
Proof.
  apply (extract_nutrients_keys_distinct
           (VDict [("foodNutrients", VList overlapping_entries)])).
  reflexivity.
Defined.

(** X3: on a list of nutrient records, the entries that satisfy no rule do
    not influence the result: removing them gives the same mapping. *)
Theorem extract_nutrients_drops_unmatched (d d' : dict) (entries : list value) :
  py_get (VDict d) "foodNutrients" (VList []) = Ok (VList entries) ->
  py_get (VDict d') "foodNutrients" (VList [])
  = Ok (VList (filter has_assignment entries)) ->
  Forall nutrient_record entries ->
  extract_nutrients (VDict d) = extract_nutrients (VDict d').
Proof.
  intros Hd Hd' Hall. unfold extract_nutrients. rewrite Hd, Hd'.
  cbn [rbind py_iter]. now apply ExtractMore.rfold_filter.
Qed.

Lemma extract_nutrients_drops_unmatched_witness :
  extract_nutrients
    (VDict [("foodNutrients", VList [vitamin_entry; protein_entry; vitamin_entry])])
  = extract_nutrients (VDict [("foodNutrients", VList [protein_entry])]).
Proof.
  apply (extract_nutrients_drops_unmatched
           [("foodNutrients", VList [vitamin_entry; protein_entry; vitamin_entry])]
           [("foodNutrients", VList [protein_entry])]
           [vitamin_entry; protein_entry; vitamin_entry]).
  - reflexivity.
  - reflexivity.
  - repeat constructor.
    + exists [("nutrientName", VStr "Vitamin C, total ascorbic acid");
              ("value", VNum 3); ("unitName", VStr "MG")],
        "Vitamin C, total ascorbic acid", "MG".
      repeat split.
    + exists [("nutrientName", VStr "Protein"); ("value", VNum 5);
              ("unitName", VStr "G")], "Protein", "G".
      repeat split.
    + exists [("nutrientName", VStr "Vitamin C, total ascorbic acid");
              ("value", VNum 3); ("unitName", VStr "MG")],
        "Vitamin C, total ascorbic acid", "MG".
      repeat split.
Defined.

(** ** The meal aggregator on any input *)

Module TotalsMore.



(** What [key_delta] is on a nutrient mapping that is a dict. *)
Lemma key_delta_dict (n : dict) (key : string) :
  key_delta (VDict n) key
  = match dict_get key n with
    | Some x =>
        match num_of x with
        | Some q => Ok q
        | None => Raise TypeError
        end
    | None => Ok 0%Q
    end.
Proof.
  unfold key_delta, py_in, py_getitem, dict_mem. cbn [rbind].
  now destruct (dict_get key n).
Qed.

Lemma item_nutrients_get (item : value) (n : dict) :
  item_nutrients item = Some n ->
  py_get item "nutrients" (VDict []) = Ok (VDict n).
Proof.
  unfold item_nutrients. destruct item; try discriminate. simpl.
  destruct (dict_get "nutrients" d) as [[]|]; try discriminate;
    now intros [= ->].
Qed.

(** The totals the loop holds always have the shape of [totals_of]. *)
Lemma fold_shape (l : list value) :
  forall f t,
    rfold add_item l (totals_of f) = Ok t -> exists g, t = totals_of g.
Proof.
  induction l as [|x l IH]; intros f t H.
  - injection H as <-. now exists f.
  - simpl in H. rewrite TotalsFacts.add_item_delta in H.
    destruct (item_delta x) as [g|]; [|discriminate].
    cbn [rbind] in H. now apply IH in H.
Qed.


Lemma total_at_totals_of (f : string -> Q) (key : string) :
  In key fixed_keys -> total_at key (totals_of f) = Some (f key).
Proof.
  intros Hin. unfold total_at. now rewrite TotalsFacts.totals_of_get.
Qed.

(** An item whose nutrient mapping holds something that is not a number
    under a fixed key makes [item_delta] a [TypeError]. *)
Lemma item_delta_type_error (item : value) (n : dict) (key : string) (x : value) :
  item_nutrients item = Some n ->
  In key fixed_keys ->
  dict_get key n = Some x ->
  num_of x = None ->
  item_delta item = Raise TypeError.
Proof.
  intros Hn Hin Hget Hnum.
  assert (Hall : forall k e, key_delta (VDict n) k = Raise e -> e = TypeError).
  { intros k e. rewrite key_delta_dict.
    destruct (dict_get k n) as [y|]; [|discriminate].
    destruct (num_of y); [discriminate|]. now intros [= <-]. }
  assert (Hbad : key_delta (VDict n) key = Raise TypeError).
  { now rewrite key_delta_dict, Hget, Hnum. }
  unfold item_delta. rewrite (item_nutrients_get item n Hn). cbn [rbind].
  simpl in Hin.
  repeat (destruct Hin as [<-|Hin];
    [repeat match goal with
       | |- context [key_delta (VDict n) ?k] =>
           let E := fresh "E" in
           destruct (key_delta (VDict n) k) as [?q|?e] eqn:E;
           [cbn [rbind]
           |rewrite (Hall _ _ E); reflexivity]
       end; congruence|]).
  contradiction.
Qed.

Lemma item_delta_same (a b : value) :
  same_fixed_nutrients a b -> item_delta a = item_delta b.
Proof.
  intros (n1 & n2 & H1 & H2 & Hsame). unfold item_delta.
  rewrite (item_nutrients_get a n1 H1), (item_nutrients_get b n2 H2).
  cbn [rbind]. rewrite !key_delta_dict.
  rewrite !Hsame by (simpl; tauto). reflexivity.
Qed.

Lemma fold_same (l1 l2 : list value) :
  Forall2 same_fixed_nutrients l1 l2 ->
  forall f,
    rfold add_item l1 (totals_of f) = rfold add_item l2 (totals_of f).
Proof.
  induction 1 as [|a b l1 l2 Hab _ IH]; intros f; [reflexivity|].
  simpl. rewrite !TotalsFacts.add_item_delta, (item_delta_same a b Hab).
  destruct (item_delta b); cbn [rbind]; [apply IH|reflexivity].
Qed.

End TotalsMore.

(** X4: whenever [calculate_meal_totals] returns, on any list of values,
    its mapping has exactly the eight fixed keys in their order and holds a
    number under each of them. *)
Theorem calculate_meal_totals_shape (meal_info : list value) (totals : dict) :
  calculate_meal_totals meal_info = Ok totals ->
  dict_keys totals = fixed_keys /\
  forall key, In key fixed_keys -> exists q, dict_get key totals = Some (VNum q).
Proof.
  intros H.
  destruct (TotalsMore.fold_shape meal_info (fun _ => 0%Q) totals H) as (g & ->).
  split; [reflexivity|].
  intros key Hin. exists (g key). now apply TotalsFacts.totals_of_get.
Qed.

Lemma calculate_meal_totals_shape_witness :
  dict_keys
    [("calories", VNum (0 + 143 + 2)); ("protein", VNum (0 + (25 # 2)));
     ("fat", VNum 0); ("carbohydrates", VNum 0); ("fiber", VNum 0);
     ("sugars", VNum 0); ("saturated_fat", VNum 0); ("sodium", VNum (0 + 5))]
  = fixed_keys.
Proof.
  apply (calculate_meal_totals_shape [egg_item; coffee_item]). reflexivity.
Defined.



(** X6: a value that is not a number under one of the fixed keys of an
    item makes [calculate_meal_totals] raise [TypeError], whatever the meal
    items before it and the values after it. *)
Theorem calculate_meal_totals_non_numeric
  (before : list value) (item : value) (after : list value)
  (n : dict) (key : string) (x : value) :
  Forall meal_item before ->
  item_nutrients item = Some n ->
  In key fixed_keys ->
  dict_get key n = Some x ->
  num_of x = None ->
  calculate_meal_totals (before ++ item :: after) = Raise TypeError.
Proof.
  intros Hbefore Hn Hin Hget Hnum. unfold calculate_meal_totals.
  rewrite ExtractMore.rfold_app.
  change zero_totals with (totals_of (fun _ => 0%Q)).
  rewrite (TotalsFacts.fold_totals before Hbefore). simpl.
  rewrite TotalsFacts.add_item_delta.
  now rewrite (TotalsMore.item_delta_type_error item n key x Hn Hin Hget Hnum).
Qed.

Lemma calculate_meal_totals_non_numeric_witness :
  calculate_meal_totals ([egg_item] ++ text_calories_item :: [coffee_item])
  = Raise TypeError.
Proof.
  apply (calculate_meal_totals_non_numeric [egg_item] text_calories_item
           [coffee_item] [("calories", VStr "n/a")] "calories" (VStr "n/a")).
  - repeat constructor. exact egg_item_is_meal_item.
  - reflexivity.
  - simpl. tauto.
  - reflexivity.
  - reflexivity.
Defined.

(** X7: the totals depend only on what the items hold under the eight
    fixed keys: food names, amounts and nutrients under other keys never
    influence the result, be it totals or an exception. *)
Theorem calculate_meal_totals_fixed_keys_only (l1 l2 : list value) :
  Forall2 same_fixed_nutrients l1 l2 ->
  calculate_meal_totals l1 = calculate_meal_totals l2.
Proof.
  intros H. apply (TotalsMore.fold_same l1 l2 H (fun _ => 0%Q)).
Qed.

Lemma calculate_meal_totals_fixed_keys_only_witness :
  calculate_meal_totals [egg_item] = calculate_meal_totals [egg_item_renamed].
Proof.
  apply (calculate_meal_totals_fixed_keys_only [egg_item] [egg_item_renamed]).
  repeat constructor.
  exists [("calories", VNum 143); ("protein", VNum (25 # 2))],
    [("vitamin_c", VNum 9); ("calories", VNum 143); ("protein", VNum (25 # 2))].
  split; [reflexivity|]. split; [reflexivity|].
  intros key Hin. simpl in Hin.
  repeat (destruct Hin as [<-|Hin]; [reflexivity|]). contradiction.
Defined.

(** ** The nutrition lookup on any answer *)

Module LookupMore.

Lemma score_key_ok_dict (x k : value) :
  score_key x = Ok k -> exists d, x = VDict d /\ k = score_value d.
Proof.
  unfold score_key, py_get, score_value. destruct x; try discriminate.
  intros [= <-]. now exists d.
Qed.

Lemma max_go_is_dict (l : list value) :
  forall best kbest c,
    max_go score_key l best kbest = Ok c ->
    is_dict best = true -> is_dict c = true.
Proof.
  induction l as [|y l IH]; intros best kbest c H Hbest.
  - now injection H as <-.
  - simpl in H. destruct (score_key y) as [ky|] eqn:Ey; [|discriminate].
    destruct (score_key_ok_dict _ _ Ey) as (d & -> & _).
    destruct (py_gt ky kbest) as [[|]|]; [| |discriminate];
      eapply IH; eauto.
Qed.

Lemma max_by_is_dict (l : list value) (c : value) :
  py_max_by score_key l = Ok c -> is_dict c = true.
Proof.
  destruct l as [|x l]; [discriminate|]. simpl.
  destruct (score_key x) as [kx|] eqn:Ex; [|discriminate].
  destruct (score_key_ok_dict _ _ Ex) as (d & -> & _).
  intros H. eapply max_go_is_dict; eauto.
Qed.

Lemma select_is_dict (data c : value) :
  select data = Ok c -> is_dict c = true.
Proof.
  unfold select. destruct (py_get data "foods" VNone) as [foods|]; [|discriminate].
  cbn [rbind]. destruct (negb (truthy foods)); [now intros [= <-]|].
  destruct (py_getitem data "foods") as [foods'|]; [|discriminate].
  cbn [rbind]. destruct (py_iter foods') as [l|]; [|discriminate].
  cbn [rbind]. apply max_by_is_dict.
Qed.

(** A number cannot be compared with a value that is not one. *)
Lemma py_gt_not_number (a b : value) (q : Q) :
  num_of a = None -> num_of b = Some q -> py_gt a b = Raise TypeError.
Proof.
  destruct a, b; simpl; try discriminate; reflexivity.
Qed.

(** The lookup once the service has answered with a status that is not an
    error and a body that decodes. *)
Lemma query_usda_decoded (usda : trace -> value -> result response)
  (food_name : value) (t : trace) (resp : response) (data : value) :
  usda t food_name = Ok resp ->
  ~ (400 <= status_code resp < 600)%Z ->
  Json.loads (text resp) = Ok data ->
  fst (query_usda usda food_name t)
  = catch (select data) (fun _ => Ok (VDict [])).
Proof.
  intros Hr Hs Hl. rewrite LookupFacts.query_usda_unfold, Hr. cbn [rbind].
  rewrite (LookupFacts.raise_for_status_fine resp Hs). cbn [rbind].
  now rewrite Hl.
Qed.

Lemma query_usda_is_dict (usda : trace -> value -> result response)
  (food_name : value) (t : trace) :
  exists d, query_usda usda food_name t = (Ok (VDict d), t ++ [UsdaSearch food_name]).
Proof.
  unfold query_usda.
  match goal with
  | |- context [catch ?r _] => destruct r as [c|e] eqn:E
  end.
  - assert (Hd : is_dict c = true).
    { destruct (usda t food_name) as [resp|]; [|discriminate].
      cbn [rbind] in E. destruct (raise_for_status resp); [|discriminate].
      cbn [rbind] in E. destruct (Json.loads (text resp)) as [data|]; [|discriminate].
      cbn [rbind] in E. now apply (select_is_dict data). }
    destruct c; try discriminate. now exists d.
  - now exists [].
Qed.

End LookupMore.


(** X9: a list of foods with a single candidate that is a dict yields that
    candidate whatever its score field holds, since nothing is compared. *)
Theorem query_usda_single_candidate
  (usda : trace -> value -> result response) (food_name : value) (t : trace)
  (resp : response) (d c : dict) :
  usda t food_name = Ok resp ->
  ~ (400 <= status_code resp < 600)%Z ->
  Json.loads (text resp) = Ok (VDict d) ->
  dict_get "foods" d = Some (VList [VDict c]) ->
  fst (query_usda usda food_name t) = Ok (VDict c).
Proof.
  intros Hr Hs Hl Hf.
  rewrite (LookupMore.query_usda_decoded usda food_name t resp _ Hr Hs Hl).
  unfold select. simpl. rewrite Hf. reflexivity.
Qed.

Lemma query_usda_single_candidate_witness :
  fst (query_usda (usda_answers 200 text_score_body) (VStr "egg") [])
  = Ok (VDict [("score", VStr "high")]).
Proof.
  apply (query_usda_single_candidate (usda_answers 200 text_score_body)
           (VStr "egg") [] (mkResponse 200 text_score_body)
           [("foods", VList [VDict [("score", VStr "high")]])]
           [("score", VStr "high")]).
  - reflexivity.
  - simpl. lia.
  - reflexivity.
  - reflexivity.
Defined.

(** X10: when the first candidate has a numeric or missing score and the
    second a score that is not a number (a text, null, a list), the
    comparison raises and [query_usda] returns the empty result although
    foods were found. *)
Theorem query_usda_incomparable_scores
  (usda : trace -> value -> result response) (food_name : value) (t : trace)
  (resp : response) (d c1 c2 : dict) (rest : list value) (q : Q) :
  usda t food_name = Ok resp ->
  ~ (400 <= status_code resp < 600)%Z ->
  Json.loads (text resp) = Ok (VDict d) ->
  dict_get "foods" d = Some (VList (VDict c1 :: VDict c2 :: rest)) ->
  num_of (score_value c1) = Some q ->
  num_of (score_value c2) = None ->
  fst (query_usda usda food_name t) = Ok (VDict []).
Proof.
  intros Hr Hs Hl Hf H1 H2.
  rewrite (LookupMore.query_usda_decoded usda food_name t resp _ Hr Hs Hl).
  unfold select. simpl. rewrite Hf. simpl.
  fold (score_value c1) (score_value c2).
  now rewrite (LookupMore.py_gt_not_number _ _ q H2 H1).
Qed.

Lemma query_usda_incomparable_scores_witness :
  fst (query_usda (usda_answers 200 mixed_scores_body) (VStr "egg") [])
  = Ok (VDict []).
Proof.
  apply (query_usda_incomparable_scores (usda_answers 200 mixed_scores_body)
           (VStr "egg") [] (mkResponse 200 mixed_scores_body)
           [("foods", VList [VDict [("score", VNum 7)];
                             VDict [("score", VStr "high")]])]
           [("score", VNum 7)] [("score", VStr "high")] [] 7%Q).
  - reflexivity.
  - simpl. lia.
  - reflexivity.
  - reflexivity.
  - reflexivity.
  - reflexivity.
Defined.

(** ** The analysis generator and the orchestrator on any input *)

Module AgentMore.

(** [generate_analysis] on totals that hold the five keys it reads by
    subscript. *)
Lemma generate_with_required
  (llm : trace -> string -> result string) (py_format : value -> string)
  (meal_totals : dict) (t : trace) :
  (forall key, In key required_keys -> dict_get key meal_totals <> None) ->
  generate_analysis llm py_format meal_totals t
  = (match llm t (totals_prompt py_format meal_totals) with
     | Ok narrative => Ok narrative
     | Raise _ => Ok analysis_fallback
     end,
     t ++ [LlmInvoke (totals_prompt py_format meal_totals)]).
Proof.
  intros Hreq. unfold generate_analysis, mbind, lift.
  rewrite !AnalysisFacts.getitem_field by (apply Hreq; simpl; tauto).
  reflexivity.
Qed.

Lemma totals_of_required (f : string -> Q) (key : string) :
  In key required_keys -> dict_get key (totals_of f) <> None.
Proof.
  intros Hin. rewrite TotalsFacts.totals_of_get; [discriminate|].
  simpl in *. tauto.
Qed.

Lemma parse_ok (llm : trace -> string -> result string)
  (user_input : string) (t : trace) :
  exists v,
    parse_food_amount llm user_input t
    = (Ok v, t ++ [LlmInvoke (parse_prompt user_input)]).
Proof.
  unfold parse_food_amount.
  match goal with
  | |- context [catch ?r _] => destruct r; eexists; reflexivity
  end.
Qed.

Lemma iter_raises (v : value) (e : exn) :
  py_iter v = Raise e -> e = TypeError.
Proof. destruct v; simpl; try discriminate; now intros [= <-]. Qed.

(** What the loop does when it ends without an exception. *)
Lemma resolve_items_ok (usda : trace -> value -> result response)
  (items : list value) :
  forall meal_info t meal_info' t',
    resolve_items usda items meal_info t = (Ok meal_info', t') ->
    searches t' = searches t ++ named_foods items /\
    (Forall built_item meal_info -> Forall built_item meal_info') /\
    List.length meal_info' <= List.length meal_info + List.length (named_foods items).
Proof.
  induction items as [|item rest IH]; intros meal_info t meal_info' t' H.
  - injection H as <- <-. simpl. rewrite app_nil_r. repeat split; auto; lia.
  - cbn [resolve_items] in H. unfold mbind, lift in H.
    destruct item as [| | | | |d]; try discriminate.
    unfold py_get in H. fold (item_food d) in H.
    cbn [named_foods flat_map].
    destruct (truthy (item_food d)) eqn:Ename; cbn [negb] in H.
    + destruct (LookupMore.query_usda_is_dict usda (item_food d) t) as (ud & Hq).
      rewrite Hq in H.
      assert (Hs : searches (t ++ [UsdaSearch (item_food d)])
                   = searches t ++ [item_food d]).
      { now rewrite AgentFacts.searches_app. }
      destruct (negb (truthy (VDict ud))).
      * destruct (IH _ _ _ _ H) as (H1 & H2 & H3).
        rewrite H1, Hs, <- app_assoc. repeat split; auto.
        rewrite length_app. simpl. fold (named_foods rest). lia.
      * destruct (extract_nutrients (VDict ud)) as [n|] eqn:En; [|discriminate].
        destruct (IH _ _ _ _ H) as (H1 & H2 & H3).
        rewrite H1, Hs, <- app_assoc. repeat split; auto.
        -- intros Hb. apply H2. apply Forall_app. split; [exact Hb|].
           repeat constructor.
           destruct (ExtractMore.extract_keys _ _ En) as [Hnd Hin].
           exists (item_food d),
             (match dict_get "amount" d with Some x => x | None => VStr "" end), n.
           repeat split; auto.
        -- rewrite !length_app in *. simpl in *. fold (named_foods rest). lia.
    + destruct (IH _ _ _ _ H) as (H1 & H2 & H3).
      repeat split; auto.
Qed.


(** An item the agent built can only make the aggregation raise a
    [TypeError]. *)
Lemma item_delta_built (item : value) (e : exn) :
  built_item item -> item_delta item = Raise e -> e = TypeError.
Proof.
  intros (food & amount & n & -> & _).
  assert (Hall : forall k e, key_delta (VDict n) k = Raise e -> e = TypeError).
  { intros k e0. rewrite TotalsMore.key_delta_dict.
    destruct (dict_get k n) as [y|]; [|discriminate].
    destruct (num_of y); [discriminate|]. now intros [= <-]. }
  unfold item_delta. simpl py_get. cbn [rbind].
  repeat match goal with
         | |- context [key_delta (VDict n) ?k] =>
             let E := fresh "E" in
             destruct (key_delta (VDict n) k) as [?q|?e] eqn:E;
             [cbn [rbind]
             |intros [= <-]; apply (Hall _ _ E)]
         end.
  discriminate.
Qed.

Lemma fold_built_raises (l : list value) :
  Forall built_item l ->
  forall f e, rfold add_item l (totals_of f) = Raise e -> e = TypeError.
Proof.
  induction 1 as [|x l Hx _ IH]; intros f e H; [discriminate|].
  simpl in H. rewrite TotalsFacts.add_item_delta in H.
  destruct (item_delta x) as [g|e'] eqn:E; cbn [rbind] in H.
  - now apply IH in H.
  - injection H as <-. now apply (item_delta_built x).
Qed.

(** The ways in which a run of the agent ends, with [t1] the trace after
    the parser's call. *)
Lemma agent_cases
  (llm : trace -> string -> result string)
  (usda : trace -> value -> result response) (py_format : value -> string)
  (user_input : string) (t : trace) :
  exists parsed,
    let t1 := t ++ [LlmInvoke (parse_prompt user_input)] in
    let agent := nutrition_agent llm usda py_format user_input t in
    parse_food_amount llm user_input t = (Ok parsed, t1) /\
    ((truthy parsed = false /\ agent = (Ok no_foods_message, t1)) \/
     (truthy parsed = true /\
      ((exists e, py_iter parsed = Raise e /\ agent = (Raise TypeError, t1)) \/
       (exists items,
           py_iter parsed = Ok items /\
           ((exists e t2,
                resolve_items usda items [] t1 = (Raise e, t2) /\
                agent = (Raise e, t2)) \/
            (exists t2,
                resolve_items usda items [] t1 = (Ok [], t2) /\
                agent = (Ok no_data_message, t2)) \/
            (exists meal_info t2,
                resolve_items usda items [] t1 = (Ok meal_info, t2) /\
                meal_info <> [] /\
                ((calculate_meal_totals meal_info = Raise TypeError /\
                  agent = (Raise TypeError, t2)) \/
                 (exists f,
                     calculate_meal_totals meal_info = Ok (totals_of f) /\
                     agent
                     = generate_analysis llm py_format (totals_of f) t2)))))))).
Proof.
  destruct (parse_ok llm user_input t) as (parsed & Hp).
  exists parsed. cbn zeta. split; [exact Hp|].
  rewrite (AgentFacts.agent_after_parse _ usda py_format _ _ _ _ Hp).
  destruct (truthy parsed); cbn [negb]; [right; split; [reflexivity|] | now left].
  destruct (py_iter parsed) as [items|e] eqn:Ei.
  - right. exists items. split; [reflexivity|].
    destruct (resolve_items usda items [] (t ++ [LlmInvoke (parse_prompt user_input)]))
      as [[[|x l]|e] t2] eqn:Er.
    + right. left. now exists t2.
    + right. right. exists (x :: l), t2. split; [reflexivity|].
      split; [discriminate|].
      destruct (resolve_items_ok usda items _ _ _ _ Er) as (_ & Hb & _).
      specialize (Hb (Forall_nil _)).
      destruct (calculate_meal_totals (x :: l)) as [totals|e] eqn:Ec.
      * right.
        destruct (TotalsMore.fold_shape (x :: l) (fun _ => 0%Q) totals Ec)
          as (g & ->).
        now exists g.
      * left. apply (fold_built_raises _ Hb (fun _ => 0%Q)) in Ec as ->.
        now split.
    + left. now exists e, t2.
  - left. exists e. split; [reflexivity|].
    now rewrite (iter_raises _ _ Ei).
Qed.

Lemma generate_on_totals
  (llm : trace -> string -> result string) (py_format : value -> string)
  (f : string -> Q) (t : trace) :
  generate_analysis llm py_format (totals_of f) t
  = (match llm t (totals_prompt py_format (totals_of f)) with
     | Ok narrative => Ok narrative
     | Raise _ => Ok analysis_fallback
     end,
     t ++ [LlmInvoke (totals_prompt py_format (totals_of f))]).
Proof. apply generate_with_required. apply totals_of_required. Qed.

End AgentMore.

(** X11: when its argument lacks one of the five keys read by subscript
    (calories, protein, fat, carbohydrates, fiber), [generate_analysis]
    raises [KeyError] while it builds the prompt, before the [try]: the
    service is not called and the fallback text is not used. *)
Theorem generate_analysis_key_error
  (llm : trace -> string -> result string) (py_format : value -> string)
  (meal_totals : dict) (t : trace) (key : string) :
  In key required_keys ->
  dict_get key meal_totals = None ->
  generate_analysis llm py_format meal_totals t = (Raise KeyError, t).
Proof.
  intros Hin Hnone. unfold generate_analysis, mbind, lift, py_getitem.
  simpl in Hin.
  repeat (destruct Hin as [<-|Hin];
    [rewrite ?Hnone;
     repeat match goal with
       | |- context [dict_get ?k meal_totals] =>
           destruct (dict_get k meal_totals); try reflexivity
       end; try reflexivity; discriminate|]).
  contradiction.
Qed.

Lemma generate_analysis_key_error_witness :
  generate_analysis (llm_says "**Score: 7/10**") format_whole
    [("calories", VNum 1); ("protein", VNum 2); ("fat", VNum 3)] []
  = (Raise KeyError, []).
Proof.
  apply (generate_analysis_key_error (llm_says "**Score: 7/10**") format_whole
           [("calories", VNum 1); ("protein", VNum 2); ("fat", VNum 3)] []
           "carbohydrates").
  - simpl. tauto.
  - reflexivity.
Defined.

(** X12: the two last stages compose: whatever [calculate_meal_totals]
    returns, [generate_analysis] accepts: it raises nothing, sends the one
    prompt built from these totals and returns the service's answer or the
    fallback text. *)
Theorem generate_analysis_after_totals
  (llm : trace -> string -> result string) (py_format : value -> string)
  (meal_info : list value) (meal_totals : dict) (t : trace) :
  calculate_meal_totals meal_info = Ok meal_totals ->
  generate_analysis llm py_format meal_totals t
  = (match llm t (totals_prompt py_format meal_totals) with
     | Ok narrative => Ok narrative
     | Raise _ => Ok analysis_fallback
     end,
     t ++ [LlmInvoke (totals_prompt py_format meal_totals)]).
Proof.
  intros H.
  destruct (TotalsMore.fold_shape meal_info (fun _ => 0%Q) meal_totals H)
    as (g & ->).
  apply AgentMore.generate_on_totals.
Qed.

Lemma generate_analysis_after_totals_witness :
  exists meal_totals,
    calculate_meal_totals [egg_item; coffee_item] = Ok meal_totals /\
    generate_analysis llm_down format_whole meal_totals []
    = (Ok analysis_fallback,
       [LlmInvoke (totals_prompt format_whole meal_totals)]).
Proof.
  eexists. split; [reflexivity|].
  apply (generate_analysis_after_totals llm_down format_whole
           [egg_item; coffee_item]).
  reflexivity.
Defined.

(** X13: the loop of [nutrition_agent], when it ends without an exception,
    has made exactly one search for every parsed item with a truthy food
    name, in the order of the items, and no other; the list it built has
    at most one entry per such item, and every entry is a dict with the
    fields food, amount and nutrients, a truthy food name and a nutrient
    mapping whose keys are distinct and among the eight fixed keys. *)
Theorem resolve_items_searches_and_entries
  (usda : trace -> value -> result response)
  (items meal_info : list value) (t t' : trace) :
  resolve_items usda items [] t = (Ok meal_info, t') ->
  searches t' = searches t ++ named_foods items /\
  prompts t' = prompts t /\
  Forall built_item meal_info /\
  List.length meal_info <= List.length (named_foods items).
Proof.
  intros H.
  destruct (AgentMore.resolve_items_ok usda items [] t meal_info t' H)
    as (H1 & H2 & H3).
  split; [exact H1|]. split.
  - pose proof (AgentFacts.resolve_items_prompts usda items [] t) as Hp.
    now rewrite H in Hp.
  - split; [now apply H2|exact H3].
Qed.

Lemma resolve_items_searches_and_entries_witness :
  let items := [VDict [("amount", VStr "1 cup")]; VDict [("food", VStr "mystery")]] in
  let t' := [UsdaSearch (VStr "mystery")] in
  resolve_items (usda_answers 200 no_foods_body) items [] [] = (Ok [], t') /\
  searches t' = [] ++ named_foods items /\
  prompts t' = [] /\
  Forall built_item [] /\
  List.length (@nil value) <= List.length (named_foods items).
Proof.
  intros items t'. split; [reflexivity|].
  apply (resolve_items_searches_and_entries (usda_answers 200 no_foods_body)
           items [] [] t').
  reflexivity.
Defined.



(** X15: a run of [nutrition_agent] sends the parsing prompt first and at
    most one more prompt, and that one is the analysis prompt built from
    totals with the eight fixed keys. *)
Theorem nutrition_agent_prompts
  (llm : trace -> string -> result string)
  (usda : trace -> value -> result response) (py_format : value -> string)
  (user_input : string) (t : trace) :
  exists more,
    prompts (snd (nutrition_agent llm usda py_format user_input t))
    = prompts t ++ parse_prompt user_input :: more /\
    (more = [] \/
     exists meal_totals,
       dict_keys meal_totals = fixed_keys /\
       more = [totals_prompt py_format meal_totals]).
Proof.
  destruct (AgentMore.agent_cases llm usda py_format user_input t)
    as (parsed & _ & Hcases). cbn zeta in Hcases.
  assert (H1 : prompts (t ++ [LlmInvoke (parse_prompt user_input)])
               = prompts t ++ [parse_prompt user_input]).
  { now rewrite AgentFacts.prompts_app. }
  assert (Hloop : forall items r t2,
             resolve_items usda items []
               (t ++ [LlmInvoke (parse_prompt user_input)]) = (r, t2) ->
             prompts t2 = prompts t ++ [parse_prompt user_input]).
  { intros items r t2 Hr.
    pose proof (AgentFacts.resolve_items_prompts usda items []
                  (t ++ [LlmInvoke (parse_prompt user_input)])) as Hp.
    rewrite Hr in Hp. simpl in Hp. now rewrite Hp. }
  destruct Hcases as [[_ ->]|[_ [(e0 & _ & ->)|(items & _ & Hc)]]].
  - exists []. split; [exact H1|now left].
  - exists []. split; [exact H1|now left].
  - destruct Hc as [(e0 & t2 & Hr & ->)|[(t2 & Hr & ->)|Htot]].
    + exists []. split; [exact (Hloop _ _ _ Hr)|now left].
    + exists []. split; [exact (Hloop _ _ _ Hr)|now left].
    + destruct Htot as (mi & t2 & Hr & _ & [[_ ->]|(f & _ & ->)]).
      * exists []. split; [exact (Hloop _ _ _ Hr)|now left].
      * exists [totals_prompt py_format (totals_of f)]. split.
        -- rewrite AgentMore.generate_on_totals. cbn [snd].
           rewrite AgentFacts.prompts_app.
           rewrite (Hloop items (Ok mi) t2 Hr). simpl.
           now rewrite <- app_assoc.
        -- right. exists (totals_of f). now split.
Qed.

(** X16: when [nutrition_agent] returns a text, it has searched exactly
    once for every parsed item with a truthy food name, in the order of the
    items, and not at all when the parser's result is empty. *)
Theorem nutrition_agent_searches
  (llm : trace -> string -> result string)
  (usda : trace -> value -> result response) (py_format : value -> string)
  (user_input : string) (t t1 t' : trace) (parsed : value) (answer : string) :
  parse_food_amount llm user_input t = (Ok parsed, t1) ->
  nutrition_agent llm usda py_format user_input t = (Ok answer, t') ->
  searches t'
  = searches t ++ (if truthy parsed then named_foods (elements parsed) else []).
Proof.
  intros Hp Ha.
  destruct (AgentMore.agent_cases llm usda py_format user_input t)
    as (parsed' & Hp' & Hcases). cbn zeta in Hp', Hcases.
  rewrite Hp in Hp'. injection Hp' as <- ->.
  assert (H1 : searches (t ++ [LlmInvoke (parse_prompt user_input)])
               = searches t).
  { rewrite AgentFacts.searches_app. simpl. apply app_nil_r. }
  rewrite Ha in Hcases.
  destruct Hcases as [[-> Hc]|[-> [(e0 & _ & Hc)|(items & Hi & Hc)]]].
  - injection Hc as _ ->. now rewrite H1, app_nil_r.
  - discriminate.
  - unfold elements. rewrite Hi.
    destruct Hc as [(e0 & t2 & _ & Hc)|[(t2 & Hr & Hc)|Htot]]; [discriminate| |].
    + injection Hc as _ ->.
      destruct (AgentMore.resolve_items_ok usda items _ _ _ _ Hr) as (Hs & _).
      now rewrite Hs, H1.
    + destruct Htot as (mi & t2 & Hr & _ & [[_ Hc]|(f & _ & Hc)]);
        [discriminate|].
      rewrite AgentMore.generate_on_totals in Hc. injection Hc as _ ->.
      destruct (AgentMore.resolve_items_ok usda items _ _ _ _ Hr) as (Hs & _).
      rewrite AgentFacts.searches_app, Hs, H1. simpl. apply app_nil_r.
Qed.

Lemma nutrition_agent_searches_witness :
  let parsed :=
    VList [VDict [("amount", VStr "1 cup")]; VDict [("food", VStr "mystery")]] in
  let t1 := [LlmInvoke (parse_prompt "something")] in
  let t' := t1 ++ [UsdaSearch (VStr "mystery")] in
  nutrition_agent (llm_says nameless_and_mystery)
    (usda_answers 200 no_foods_body) format_whole "something" []
  = (Ok no_data_message, t') /\
  searches t'
  = [] ++ (if truthy parsed then named_foods (elements parsed) else []).
Proof.
  intros parsed t1 t'. split; [reflexivity|].
  apply (nutrition_agent_searches (llm_says nameless_and_mystery)
           (usda_answers 200 no_foods_body) format_whole "something" []
           t1 t' parsed no_data_message).
  - reflexivity.
  - reflexivity.
Defined.

(** ** The text handed to the decoder, and the start of the script *)

Module StartMore.

Import PyStr.

Lemma lstrip_suffix (s : string) : exists a, s = (a ++ lstrip s)%string.
Proof.
  induction s as [|c s IH]; simpl.
  - now exists "".
  - destruct (is_space c).
    + destruct IH as (a & Ha). exists (String c a). simpl. now rewrite <- Ha.
    + now exists "".
Qed.

Lemma rstrip_prefix (s : string) : exists b, s = (rstrip s ++ b)%string.
Proof.
  induction s as [|c s IH]; simpl.
  - now exists "".
  - destruct IH as (b & Hb). destruct (rstrip s) as [|c' r] eqn:E.
    + destruct (is_space c).
      * now exists (String c s).
      * now exists s.
    + exists b. simpl. f_equal. exact Hb.
Qed.

(** [strip] returns a piece of its argument. *)
Lemma strip_piece (s : string) :
  exists a b, s = (a ++ strip s ++ b)%string.
Proof.
  unfold strip. destruct (lstrip_suffix s) as (a & Ha).
  destruct (rstrip_prefix (lstrip s)) as (b & Hb).
  exists a, b. now rewrite <- Hb.
Qed.

Lemma strip_clean (sep s : string) :
  no_occurrence sep s -> no_occurrence sep (strip s).
Proof.
  intros Hno p r Hp. destruct (strip_piece s) as (a & b & Hs).
  apply (Hno (a ++ p) (r ++ b))%string.
  rewrite Hs at 1. rewrite Hp. now rewrite !StrFacts.app_assoc.
Qed.

Lemma until_clean_of (sep s : string) :
  sep <> "" -> no_occurrence sep (until sep s).
Proof.
  intros Hsep. unfold until.
  destruct (find_first sep s) as [[a b]|] eqn:E.
  - apply (StrFacts.before_first_clean sep s a b Hsep).
    now apply StrFacts.find_first_sound.
  - now apply StrFacts.find_first_none.
Qed.






Lemma take_drop (n : nat) (s : string) :
  s = (str_take n s ++ drop n s)%string.
Proof.
  revert s. induction n as [|n IH]; intros s; [reflexivity|].
  destruct s as [|c s]; [reflexivity|]. simpl. now rewrite <- IH.
Qed.

Lemma take_length (n : nat) (s : string) :
  String.length (str_take n s) = Nat.min n (String.length s).
Proof.
  revert s. induction n as [|n IH]; intros s; [reflexivity|].
  destruct s as [|c s]; [reflexivity|]. simpl. now rewrite IH.
Qed.

End StartMore.

(** X17: when the response holds a fence, the text [parse_food_amount]
    hands to the decoder holds none: no fence reaches [json.loads]. *)
Theorem extract_json_text_without_fence (content extracted : string) :
  PyStr.contains fence content = true ->
  extract_json_text content = Ok extracted ->
  PyStr.contains fence extracted = false.
Proof.
  intros Hc He. apply StrFacts.contains_false.
  destruct (PyStr.find_first fence_json content) as [[pre rest]|] eqn:Ej.
  - apply StrFacts.find_first_sound in Ej.
    rewrite (ParseFacts.extract_tagged _ _ _ Ej) in He. injection He as <-.
    apply StartMore.strip_clean, StartMore.until_clean_of, ParseFacts.fence_nonempty.
  - apply StrFacts.find_first_none in Ej.
    destruct (PyStr.find_first fence content) as [[pre rest]|] eqn:Ef.
    + apply StrFacts.find_first_sound in Ef.
      rewrite (ParseFacts.extract_untagged _ _ _ Ej Ef) in He. injection He as <-.
      apply StartMore.strip_clean, StartMore.until_clean_of,
        ParseFacts.fence_nonempty.
    + rewrite StrFacts.contains_find, Ef in Hc. discriminate.
Qed.

Lemma extract_json_text_without_fence_witness :
  PyStr.contains fence two_blocks = true /\
  PyStr.contains fence "[2]" = false.
Proof.
  split; [reflexivity|].
  apply (extract_json_text_without_fence two_blocks "[2]"); reflexivity.
Defined.



(** X19: the start-up line for a key shows the first eight characters of
    a key that is set, or the whole key when it is shorter, followed by
    three dots, and nothing else of the key; for a key that is unset or
    empty it shows "Not found". *)
Theorem key_preview_shows_prefix (k : string) :
  k <> "" ->
  exists shown hidden,
    k = (shown ++ hidden)%string /\
    String.length shown = Nat.min 8 (String.length k) /\
    key_preview (Some k) = (shown ++ "...")%string.
Proof.
  intros Hk. exists (str_take 8 k), (PyStr.drop 8 k).
  split; [apply StartMore.take_drop|]. split; [apply StartMore.take_length|].
  unfold key_preview. now destruct (String.eqb_spec k "").
Qed.

Lemma key_preview_shows_prefix_witness :
  "sk-0123456789abcdef" <> "" /\
  exists shown hidden,
    "sk-0123456789abcdef" = (shown ++ hidden)%string /\
    String.length shown = Nat.min 8 (String.length "sk-0123456789abcdef") /\
    key_preview (Some "sk-0123456789abcdef") = (shown ++ "...")%string.
Proof.
  split; [discriminate|].
  apply (key_preview_shows_prefix "sk-0123456789abcdef"). discriminate.
Defined.

(** ** From the record of one food to its totals *)

Module PipelineMore.

(** A value the extractor stores is the value of an entry assigned to the
    key. *)
Lemma last_assigned_in (key : string) (entries : list value) (v : value) :
  last_assigned key entries = Some v ->
  exists e, In e entries /\ assignment e = Some (key, v).
Proof.
  unfold last_assigned. induction entries as [|e rest IH]; simpl; [discriminate|].
  destruct (last_picked _ rest) as [w|].
  - intros H. destruct (IH H) as (e' & Hin & Ha). exists e'. auto.
  - destruct (assignment e) as [[k x]|] eqn:Ea; [|discriminate].
    destruct (String.eqb_spec k key) as [->|]; [|discriminate].
    intros [= ->]. exists e. auto.
Qed.

Lemma assignment_value (d : dict) (key : string) (v : value) :
  assignment (VDict d) = Some (key, v) -> v = entry_value d.
Proof.
  unfold assignment.
  destruct (str_field "nutrientName" d); try discriminate.
  destruct (str_field "unitName" d); try discriminate.
  destruct (earliest_rule _ _); try discriminate.
  now intros [= _ <-].
Qed.

Lemma last_assigned_numeric (key : string) (entries : list value) (v : value) :
  Forall numeric_record entries ->
  last_assigned key entries = Some v -> num_of v <> None.
Proof.
  intros Hall H. destruct (last_assigned_in _ _ _ H) as (e & Hin & Ha).
  rewrite Forall_forall in Hall.
  destruct (Hall e Hin) as (_ & d & -> & Hnum).
  now rewrite (assignment_value d key v Ha).
Qed.

End PipelineMore.

(** X20: extraction and aggregation compose: for a record whose entries are
    nutrient records with numeric values, the item the agent builds from
    the extracted mapping aggregates without an exception, and the total of
    every fixed key is the value of the last entry assigned to that key, 0
    when no entry is. *)
Theorem extract_then_aggregate
  (d : dict) (entries : list value) (food_name amount : value) :
  py_get (VDict d) "foodNutrients" (VList []) = Ok (VList entries) ->
  Forall numeric_record entries ->
  exists nutrients totals,
    extract_nutrients (VDict d) = Ok nutrients /\
    calculate_meal_totals
      [VDict [("food", food_name); ("amount", amount);
              ("nutrients", VDict nutrients)]]
    = Ok totals /\
    forall key,
      In key fixed_keys ->
      total_at key totals = Some (0 + extracted_amount key entries)%Q.
Proof.
  intros Hget Hall.
  assert (Hrec : Forall nutrient_record entries).
  { eapply Forall_impl; [|exact Hall]. now intros e [He _]. }
  unfold extract_nutrients. rewrite Hget. cbn [rbind py_iter].
  destruct (ExtractFacts.rfold_extract entries Hrec []) as (m & Hm & Hk).
  exists m. eexists. split; [exact Hm|].
  assert (Hlast : forall key, dict_get key m = last_assigned key entries).
  { intros key. rewrite Hk. simpl. now destruct (last_assigned key entries). }
  set (item := VDict [("food", food_name); ("amount", amount);
                      ("nutrients", VDict m)]).
  assert (Hitem : meal_item item).
  { exists m. split; [reflexivity|]. intros key x _ Hx.
    rewrite Hlast in Hx. eapply PipelineMore.last_assigned_numeric; eauto. }
  split.
  - apply (TotalsFacts.fold_totals [item] (Forall_cons _ Hitem (Forall_nil _))
             (fun _ => 0%Q)).
  - intros key Hin. rewrite TotalsMore.total_at_totals_of by exact Hin.
    simpl. unfold contribution, extracted_amount. simpl.
    now rewrite Hlast.
Qed.

Lemma extract_then_aggregate_witness :
  exists nutrients totals,
    extract_nutrients (VDict [("foodNutrients", VList overlapping_entries)])
    = Ok nutrients /\
    calculate_meal_totals
      [VDict [("food", VStr "egg"); ("amount", VStr "1");
              ("nutrients", VDict nutrients)]]
    = Ok totals /\
    forall key,
      In key fixed_keys ->
      total_at key totals
      = Some (0 + extracted_amount key overlapping_entries)%Q.
Proof.
  apply (extract_then_aggregate
           [("foodNutrients", VList overlapping_entries)] overlapping_entries).
  - reflexivity.
  - repeat constructor.
    + exists [("nutrientName", VStr "Protein"); ("value", VNum 5);
              ("unitName", VStr "G")], "Protein", "G".
      repeat split.
    + exists [("nutrientName", VStr "Protein"); ("value", VNum 5);
              ("unitName", VStr "G")].
      split; [reflexivity|discriminate].
    + exists [("nutrientName", VStr "Energy from protein"); ("value", VNum 7);
              ("unitName", VStr "KCAL")], "Energy from protein", "KCAL".
      repeat split.
    + exists [("nutrientName", VStr "Energy from protein"); ("value", VNum 7);
              ("unitName", VStr "KCAL")].
      split; [reflexivity|discriminate].
Defined.
